(** * Sample warning system

    A shallow embedding of [sample_warning_system.py]: the configuration
    store ([load_config], [save_config], the add / delete / clear / import /
    export handlers of [config_editor] and [process_tables]), the table
    extractor ([extract_tables_from_word]), the date-warning evaluator
    ([process_date_warnings]) and the multi-folder pipeline of
    [process_tables].

    Conventions of the embedding.
    - Python integers are [Z]; counters and positions are [nat].
    - A pandas timestamp is a [Z], the number of nanoseconds since the epoch;
      [NaT] and [NaN] are the one null cell [CNull].
    - A [DataFrame] has an ordered list of column labels and a list of rows,
      each with its index label; a row is a finite map from column label to
      cell, a label missing from the map reading as [NaN].
    - A Python exception is [Raised msg], [msg] standing for [str(e)].
    - Library calls whose behaviour is not in the repository (pandas' date
      parser, frame constructor and Excel writer, [str.strip], [strftime],
      [json]) are the fields of the classes [Libraries] and [JsonCodec]; the
      file system, the documents and the wall clock are the fields of
      [world].
    - The evaluator is modelled on the inputs the add forms and ordinary
      documents give it: the column labels of a frame are distinct, dates
      carry no time zone and are parsed one cell at a time, and the
      arithmetic on days is exact. On such inputs the only exceptions are
      those of the frame constructor, of the date parser in its default
      mode and of the Excel writer. Outside these inputs the evaluation
      of a folder may raise at other places (a time zone in a start date,
      a repeated column label); what is proved of the frame that is kept,
      of the status lists and of the counts does not depend on where an
      exception of the evaluation comes from.
    - The Streamlit widgets are not modelled; [st.error] calls are kept as a
      list of messages, the handlers of the buttons and forms are functions
      on the session state. *)

From Stdlib Require Import ZArith Lia Ascii String.
From stdpp Require Import base option list gmap strings.

Local Open Scope string_scope.

(** ** Results of fallible code *)

Inductive result (A : Type) : Type :=
  | Ok (a : A)
  | Raised (msg : string).
Arguments Ok {A} a.
Arguments Raised {A} msg.

Definition is_ok {A} (r : result A) : bool :=
  match r with Ok _ => true | Raised _ => false end.

(** A computation over a mutable store [S] that may raise: the store is
    returned also when an exception leaves the computation, as the mutations
    a Python function made before raising stay visible to its caller. *)
Definition M (S A : Type) : Type := S -> S * result A.

Definition ret {S A} (a : A) : M S A := fun s => (s, Ok a).
Definition bind {S A B} (c : M S A) (k : A -> M S B) : M S B :=
  fun s => match c s with
           | (s', Ok a) => k a s'
           | (s', Raised msg) => (s', Raised msg)
           end.
Definition get {S} : M S S := fun s => (s, Ok s).
Definition put {S} (s : S) : M S unit := fun _ => (s, Ok tt).
Definition lift {S A} (r : result A) : M S A := fun s => (s, r).

Notation "x <- c ;; k" := (bind c (fun x => k))
  (at level 100, c at next level, right associativity).
Notation "c ;;; k" := (bind c (fun _ => k))
  (at level 100, right associativity).

(** ** Data model *)

Inductive cell : Type :=
  | CStr (s : string)
  | CTime (t : Z)
  | CNum (n : Z)
  | CNull.

Record DataFrame : Type := mkDataFrame {
  columns : list string;
  rows : list (nat * gmap string cell)
}.

Record Rule : Type := mkRule {
  start_column : string;
  end_column : option string;
  warning_days : Z;
  stability_days : Z
}.

Record FolderEntry : Type := mkFolder {
  name : string;
  path : string;
  rule : Rule
}.

Record file : Type := mkFile {
  file_path : string;
  file_name : string
}.

(** What pandas' date parser makes of one string: a timestamp, a null
    (the empty string and the like, no error in either mode), or a failure,
    which [errors='coerce'] turns into [NaT] and the default mode raises. *)
Inductive parsed : Type :=
  | Parsed (t : Z)
  | Blank
  | Unparseable.

Inductive errors_mode : Type := ErrorsRaise | ErrorsCoerce.

Class Libraries : Type := {
  str_strip : string -> string;
  pd_DataFrame : list (list string) -> list string -> result DataFrame;
  parse_datetime : string -> parsed;
  parse_error : string -> string;
  strftime_date : Z -> string;
  to_excel : DataFrame -> result unit
}.

(** The environment of one run: [os.path.exists], [Path.rglob("*.docx")],
    [Document(file)] with the text of every cell of every row of every
    table, and the successive readings of [pd.Timestamp.now()]. *)
Record world : Type := mkWorld {
  path_exists : string -> bool;
  rglob_docx : string -> list file;
  open_document : file -> result (list (list (list string)));
  now : nat -> Z
}.

(** ** Frames *)

Definition cell_at (r : gmap string cell) (c : string) : cell :=
  default CNull (r !! c).

Definition has_column (df : DataFrame) (c : string) : bool :=
  bool_decide (c ∈ columns df).

Definition add_column (cols : list string) (c : string) : list string :=
  if bool_decide (c ∈ cols) then cols else cols ++ [c].

(** [df[c]] *)
Definition df_col (df : DataFrame) (c : string) : list cell :=
  (fun r => cell_at r.2 c) <$> rows df.

(** [df[c] = series], the series having the frame's index. *)
Definition df_set_col (df : DataFrame) (c : string) (vals : list cell) : DataFrame :=
  {| columns := add_column (columns df) c;
     rows := zip_with (fun r v => (r.1, <[c := v]> r.2)) (rows df) vals |}.

(** [df[c] = scalar] *)
Definition df_set_scalar (df : DataFrame) (c : string) (v : cell) : DataFrame :=
  {| columns := add_column (columns df) c;
     rows := (fun r => (r.1, <[c := v]> r.2)) <$> rows df |}.

Fixpoint select {A} (mask : list bool) (l : list A) : list A :=
  match mask, l with
  | b :: mask', x :: l' => if b then x :: select mask' l' else select mask' l'
  | _, _ => []
  end.

(** [df[mask]], a boolean series over the frame's index. *)
Definition df_select (df : DataFrame) (mask : list bool) : DataFrame :=
  {| columns := columns df; rows := select mask (rows df) |}.

Definition df_empty (df : DataFrame) : bool :=
  match rows df with [] => true | _ => false end.

Definition union_columns (dfs : list DataFrame) : list string :=
  foldl (fun acc df => foldl add_column acc (columns df)) [] dfs.

Definition reindex {A} (l : list (nat * A)) : list (nat * A) :=
  imap (fun i r => (i, r.2)) l.

(** [pd.concat(frames, ignore_index=True)] *)
Definition pd_concat (dfs : list DataFrame) : result DataFrame :=
  match dfs with
  | [] => Raised "No objects to concatenate"
  | _ => Ok {| columns := union_columns dfs;
               rows := reindex (concat (rows <$> dfs)) |}
  end.

(** ** Dates *)

Section Dates.
Context `{Libraries}.
Local Open Scope Z_scope.

Definition day_ns : Z := 86400000000000.

Definition to_datetime_cell (mode : errors_mode) (c : cell) : result cell :=
  match c with
  | CTime t => Ok (CTime t)
  | CNum n => Ok (CTime n)
  | CNull => Ok CNull
  | CStr s =>
      match parse_datetime s with
      | Parsed t => Ok (CTime t)
      | Blank => Ok CNull
      | Unparseable =>
          match mode with
          | ErrorsCoerce => Ok CNull
          | ErrorsRaise => Raised (parse_error s)
          end
      end
  end.

(** [pd.to_datetime(series, errors=mode)] *)
Fixpoint to_datetime (mode : errors_mode) (l : list cell) : result (list cell) :=
  match l with
  | [] => Ok []
  | c :: l' =>
      match to_datetime_cell mode c with
      | Raised msg => Raised msg
      | Ok c' =>
          match to_datetime mode l' with
          | Raised msg => Raised msg
          | Ok l'' => Ok (c' :: l'')
          end
      end
  end.

(** The cell [errors='coerce'] makes of a cell. *)
Definition coerce_cell (c : cell) : cell :=
  match to_datetime_cell ErrorsCoerce c with
  | Ok c' => c'
  | Raised _ => CNull
  end.

(** [series.dt.strftime('%Y-%m-%d')] *)
Definition dt_strftime (l : list cell) : list cell :=
  (fun c => match c with CTime t => CStr (strftime_date t) | _ => CNull end) <$> l.

(** [(e - s).days] for two timestamps; [NaN] when either is [NaT]. *)
Definition delta_days (e s : cell) : option Z :=
  match e, s with
  | CTime te, CTime ts => Some ((te - ts) / day_ns)
  | _, _ => None
  end.

End Dates.

(** ** The date-warning evaluator ([process_date_warnings]) *)

(** One entry of [warning_results]. *)
Record warning_result : Type := mkWarning {
  w_mask : list bool;
  w_start_col : string;
  w_end_col : string;
  w_warning_days : Z;
  w_stability_days : Z;
  w_days_diff : list (option Z);
  w_remaining_days : list (option Z)
}.

(** The store of the evaluator: the frame [df], mutated in place, and the
    number of readings of the clock taken so far. *)
Record store : Type := mkStore {
  frame : DataFrame;
  ticks : nat
}.

(** [end_dates] is a series or the one timestamp of [pd.Timestamp.now()]. *)
Inductive end_dates : Type :=
  | EndSeries (l : list cell)
  | EndNow (t : Z).

(** The truth value of [end_col]: [None] and the empty string are false. *)
Definition configured (end_col : option string) : option string :=
  match end_col with
  | Some "" => None
  | Some c => Some c
  | None => None
  end.

Definition any (mask : list bool) : bool := existsb id mask.

Section Evaluator.
Context `{Libraries}.
Variable w : world.
Local Open Scope Z_scope.

Definition set_frame_col (c : string) (vals : list cell) : M store unit :=
  fun st => (mkStore (df_set_col (frame st) c vals) (ticks st), Ok tt).

Definition read_col (c : string) : M store (list cell) :=
  fun st => (st, Ok (df_col (frame st) c)).

Definition read_has_column (c : string) : M store bool :=
  fun st => (st, Ok (has_column (frame st) c)).

(** [pd.Timestamp.now()] *)
Definition timestamp_now : M store Z :=
  fun st => (mkStore (frame st) (S (ticks st)), Ok (now w (ticks st))).

(** Lines 82-85: the end dates of one rule. *)
Definition get_end_dates (end_col : option string) : M store end_dates :=
  match configured end_col with
  | Some c =>
      present <- read_has_column c;;
      if (present : bool) then
        col <- read_col c;;
        e <- lift (to_datetime ErrorsCoerce col);;
        ret (EndSeries e)
      else
        t <- timestamp_now;; ret (EndNow t)
  | None => t <- timestamp_now;; ret (EndNow t)
  end.

(** [(end_dates - df[start_col]).dt.days] *)
Definition days_between (e : end_dates) (starts : list cell) : list (option Z) :=
  match e with
  | EndSeries es => zip_with delta_days es starts
  | EndNow t => delta_days (CTime t) <$> starts
  end.

(** [days_diff > warning_days]; a comparison with [NaN] is false. *)
Definition exceeds (warning_days : Z) (d : option Z) : bool :=
  match d with
  | Some x => warning_days <? x
  | None => false
  end.

(** [stability_days - days_diff] on one value; [NaN] stays [NaN]. *)
Definition remaining (stability_days : Z) (d : option Z) : option Z :=
  match d with
  | Some x => Some (stability_days - x)
  | None => None
  end.

(** Lines 79-88: the start column is converted in place, the end dates are
    chosen, and the whole days between the two are [days_diff]. *)
Definition elapsed_days (r : Rule) : M store (list (option Z)) :=
  raw <- read_col (start_column r);;
  starts <- lift (to_datetime ErrorsCoerce raw);;
  set_frame_col (start_column r) starts;;;
  e <- get_end_dates (end_column r);;
  starts' <- read_col (start_column r);;
  ret (days_between e starts').

(** The body of the loop over [date_rules], lines 70-105. *)
Definition eval_rule (r : Rule) (warning_results : list warning_result)
  : M store (list warning_result) :=
  present <- read_has_column (start_column r);;
  if negb present then ret warning_results
  else
    days_diff <- elapsed_days r;;
    let remaining_days : list (option Z) := remaining (stability_days r) <$> days_diff in
    let warning_mask : list bool := exceeds (warning_days r) <$> days_diff in
    if any warning_mask then
      ret (app warning_results
           [ {| w_mask := warning_mask;
                w_start_col := start_column r;
                w_end_col := default "当前日期" (configured (end_column r));
                w_warning_days := warning_days r;
                w_stability_days := stability_days r;
                w_days_diff := days_diff;
                w_remaining_days := remaining_days |} ])
    else ret warning_results.

Fixpoint process_rules (date_rules : list Rule) (warning_results : list warning_result)
  : M store (list warning_result) :=
  match date_rules with
  | [] => ret warning_results
  | r :: rest =>
      warning_results' <- eval_rule r warning_results;;
      process_rules rest warning_results'
  end.

(** [process_date_warnings(df, date_rules)]: the frame of the store is [df],
    returned as the first component of the Python pair. *)
Definition process_date_warnings (date_rules : list Rule) : M store (list warning_result) :=
  process_rules date_rules [].

(** ** Classification of the flagged rows, lines 343-354 *)

Definition OVERDUE : string := "❌ 已超期".
Definition NEAR : string := "⚠️ 接近超期".
Definition NORMAL : string := "✅ 正常".

Definition COL_ELAPSED : string := "已用天数".
Definition COL_REMAINING : string := "剩余稳定性期限(天)".
Definition COL_STATUS : string := "状态".

(** The lambda of line 349 on one value of the remaining-days column, which
    holds numbers and [NaN] only; both comparisons are false on [NaN]. *)
Definition status_of (x : cell) : string :=
  match x with
  | CNum n => if n <=? 0 then OVERDUE else if n <=? 30 then NEAR else NORMAL
  | _ => NORMAL
  end.

Definition num_cell (o : option Z) : cell :=
  match o with Some n => CNum n | None => CNull end.

Definition cell_is_str (s : string) (c : cell) : bool :=
  match c with CStr s' => bool_decide (s' = s) | _ => false end.

(** Lines 344-351 for one warning. *)
Definition warning_samples (folder_merged : DataFrame) (wr : warning_result) : DataFrame :=
  let ws := df_select folder_merged (w_mask wr) in
  let ws := df_set_col ws COL_ELAPSED (num_cell <$> select (w_mask wr) (w_days_diff wr)) in
  let ws := df_set_col ws COL_REMAINING (num_cell <$> select (w_mask wr) (w_remaining_days wr)) in
  let ws := df_set_col ws COL_STATUS ((fun x => CStr (status_of x)) <$> df_col ws COL_REMAINING) in
  df_select ws ((fun c => negb (cell_is_str NORMAL c)) <$> df_col ws COL_STATUS).

(** Lines 343-354: the frames appended to [all_warning_samples]. *)
Definition collect_warnings (folder_merged : DataFrame) (warning_results : list warning_result)
  : list DataFrame :=
  filter (fun ws => df_empty ws = false) (warning_samples folder_merged <$> warning_results).

(** Lines 335-341: a date column is parsed again, in the default mode, and
    written back as text. *)
Definition format_column (c : string) : M store unit :=
  col <- read_col c;;
  dates <- lift (to_datetime ErrorsRaise col);;
  set_frame_col c (dt_strftime dates).

(** Lines 333-354 on the merged frame of one folder. *)
Definition evaluate_folder (r : Rule) : M store (list DataFrame) :=
  warning_results <- process_date_warnings [r];;
  has_start <- read_has_column (start_column r);;
  (if (has_start : bool) then format_column (start_column r) else ret tt);;;
  (match configured (end_column r) with
   | Some c =>
       has_end <- read_has_column c;;
       if (has_end : bool) then format_column c else ret tt
   | None => ret tt
   end);;;
  st <- get;;
  ret (collect_warnings (frame st) warning_results).

End Evaluator.

(** ** The table extractor ([extract_tables_from_word]) *)

Section Pipeline.
Context `{Libraries}.
Variable w : world.

(** Lines 46-58: one frame per table that has at least one row, the first
    row being the header. *)
Fixpoint frames_of_tables (tables : list (list (list string))) : result (list DataFrame) :=
  match tables with
  | [] => Ok []
  | table :: rest =>
      let table_data : list (list string) :=
        (fun row : list string => str_strip <$> row) <$> table in
      match table_data with
      | [] => frames_of_tables rest
      | header :: body =>
          match pd_DataFrame body header with
          | Raised msg => Raised msg
          | Ok df =>
              match frames_of_tables rest with
              | Raised msg => Raised msg
              | Ok dfs => Ok (df :: dfs)
              end
          end
      end
  end.

(** The tables of a file and the messages given to [st.error]: any exception
    of the body is caught, reported and answered by the empty list. *)
Definition extract_tables_from_word (f : file) : list DataFrame * list string :=
  let body :=
    match open_document w f with
    | Raised msg => Raised msg
    | Ok tables => frames_of_tables tables
    end in
  match body with
  | Ok all_tables => (all_tables, [])
  | Raised msg => ([], ["无法打开文件 " +:+ file_name f +:+ "：" +:+ msg])
  end.

(** ** The pipeline of [process_tables] *)

(** The locals of the loop over the files of one folder, lines 307-324. *)
Record folder_scan : Type := mkScan {
  folder_tables : list DataFrame;
  processed_files : nat;
  failed_files : list string;
  scan_messages : list string
}.

Definition COL_FILE : string := "文件名".
Definition COL_FOLDER : string := "来源文件夹".

Definition tag_table (f : file) (folder_name : string) (table : DataFrame) : DataFrame :=
  df_set_scalar (df_set_scalar table COL_FILE (CStr (file_name f)))
                COL_FOLDER (CStr folder_name).

(** Lines 312-324 for one file. *)
Definition scan_file (folder_name : string) (acc : folder_scan) (f : file) : folder_scan :=
  let '(tables, msgs) := extract_tables_from_word f in
  match tables with
  | [] =>
      {| folder_tables := folder_tables acc;
         processed_files := processed_files acc;
         failed_files := app (failed_files acc) [file_name f];
         scan_messages := app (scan_messages acc) msgs |}
  | _ =>
      {| folder_tables := app (folder_tables acc) (tag_table f folder_name <$> tables);
         processed_files := S (processed_files acc);
         failed_files := failed_files acc;
         scan_messages := app (scan_messages acc) msgs |}
  end.

Definition scan_files (folder_name : string) (word_files : list file) : folder_scan :=
  foldl (scan_file folder_name) (mkScan [] 0 [] []) word_files.

(** [folder_status] *)
Record folder_status : Type := mkStatus {
  success : list (string * nat * nat);
  empty_folders : list string;
  error : list (string * string);
  file_errors : gmap string (list string)
}.

(** The variables the loop over the folders updates, with the messages shown
    by [st.error] and the number of readings of the clock. *)
Record run : Type := mkRun {
  all_tables : list DataFrame;
  all_warning_samples : list DataFrame;
  status : folder_status;
  messages : list string;
  clock_reads : nat
}.

Definition initial_run : run :=
  mkRun [] [] (mkStatus [] [] [] ∅) [] 0.

Definition add_error (folder_name msg : string) (st : run) : run :=
  mkRun (all_tables st) (all_warning_samples st)
        (mkStatus (success (status st)) (empty_folders (status st))
                  (app (error (status st)) [(folder_name, msg)])
                  (file_errors (status st)))
        (messages st) (clock_reads st).

Definition add_empty (folder_name : string) (st : run) : run :=
  mkRun (all_tables st) (all_warning_samples st)
        (mkStatus (success (status st))
                  (app (empty_folders (status st)) [folder_name])
                  (error (status st)) (file_errors (status st)))
        (messages st) (clock_reads st).

Definition add_success (folder_name : string) (processed failed : nat) (st : run) : run :=
  mkRun (all_tables st) (all_warning_samples st)
        (mkStatus (app (success (status st)) [(folder_name, processed, failed)])
                  (empty_folders (status st)) (error (status st))
                  (file_errors (status st)))
        (messages st) (clock_reads st).

(** Lines 311-327: the scan's messages are shown, and a non-empty list of
    failed files is stored under the folder's name. *)
Definition record_scan (folder_name : string) (scan : folder_scan) (st : run) : run :=
  mkRun (all_tables st) (all_warning_samples st)
        (mkStatus (success (status st)) (empty_folders (status st)) (error (status st))
                  (match failed_files scan with
                   | [] => file_errors (status st)
                   | _ => <[folder_name := failed_files scan]> (file_errors (status st))
                   end))
        (app (messages st) (scan_messages scan)) (clock_reads st).

(** Lines 330-356. [all_tables] holds the very object [folder_merged] that
    the evaluator and the two formatting steps mutate afterwards, so the
    frame it ends up with is the frame of the store when the body is left,
    normally or by an exception. *)
Definition merge_and_evaluate (fc : FolderEntry) (scan : folder_scan) (st : run) : run :=
  match pd_concat (folder_tables scan) with
  | Raised msg => add_error (name fc) msg st
  | Ok folder_merged =>
      let '(s, r) := evaluate_folder w (rule fc) (mkStore folder_merged (clock_reads st)) in
      let st' := mkRun (app (all_tables st) [frame s]) (all_warning_samples st)
                       (status st) (messages st) (ticks s) in
      match r with
      | Ok samples =>
          add_success (name fc) (processed_files scan) (length (failed_files scan))
            (mkRun (all_tables st') (app (all_warning_samples st') samples)
                   (status st') (messages st') (clock_reads st'))
      | Raised msg => add_error (name fc) msg st'
      end
  end.

(** Lines 326-356: what follows the loop over the files. *)
Definition finish_folder (fc : FolderEntry) (scan : folder_scan) (st : run) : run :=
  let st := record_scan (name fc) scan st in
  match folder_tables scan with
  | [] => st
  | _ => merge_and_evaluate fc scan st
  end.

(** The body of the loop over the folders, lines 293-359. *)
Definition process_folder (st : run) (fc : FolderEntry) : run :=
  if negb (path_exists w (path fc)) then
    add_error (name fc) ("文件夹路径不存在: " +:+ path fc) st
  else
    match rglob_docx w (path fc) with
    | [] => add_empty (name fc) st
    | word_files => finish_folder fc (scan_files (name fc) word_files) st
    end.

Definition process_folders (folders : list FolderEntry) : run :=
  foldl process_folder initial_run folders.

(** ** The report, lines 400-455 *)

(** [series.value_counts()] on a column of strings; nulls are not
    counted. *)
Definition value_counts (l : list cell) : gmap string nat :=
  foldl (fun m c => match c with
                    | CStr s => <[s := S (default 0 (m !! s))]> m
                    | _ => m
                    end) ∅ l.

(** What the warning tab shows: the three metrics and the table, or the
    notice that there is no warning. *)
Inductive warning_tab : Type :=
  | Metrics (overdue near total : nat) (table : DataFrame)
  | NoWarnings.

Record report : Type := mkReport {
  final_status : folder_status;
  shown_errors : list string;
  merged_all : option DataFrame;
  combined_warnings : option DataFrame;
  status_summary : gmap string nat;
  tab2 : warning_tab
}.

Definition summary_get (summary : gmap string nat) (key : string) : nat :=
  default 0 (summary !! key).

(** Lines 400-411 are outside the [try] of the loop: an exception of
    [pd.concat] or of [to_excel] leaves [process_tables]. *)
Definition build_report (st : run) : result report :=
  match (match all_tables st with
         | [] => Ok None
         | _ => match pd_concat (all_tables st) with
                | Ok df => match to_excel df with
                           | Ok _ => Ok (Some df)
                           | Raised msg => Raised msg
                           end
                | Raised msg => Raised msg
                end
         end) with
  | Raised msg => Raised msg
  | Ok merged =>
      match (match all_warning_samples st with
             | [] => Ok (None, ∅)
             | _ => match pd_concat (all_warning_samples st) with
                    | Ok df => match to_excel df with
                               | Ok _ => Ok (Some df, value_counts (df_col df COL_STATUS))
                               | Raised msg => Raised msg
                               end
                    | Raised msg => Raised msg
                    end
             end) with
      | Raised msg => Raised msg
      | Ok (combined, summary) =>
          Ok {| final_status := status st;
                shown_errors := messages st;
                merged_all := merged;
                combined_warnings := combined;
                status_summary := summary;
                tab2 := match combined with
                        | Some df => Metrics (summary_get summary OVERDUE)
                                             (summary_get summary NEAR)
                                             (length (rows df)) df
                        | None => NoWarnings
                        end |}
      end
  end.

(** [process_tables()] from line 276 on, for the folders of the session. *)
Definition process_tables (folders : list FolderEntry) : result report :=
  build_report (process_folders folders).

End Pipeline.

(** ** The configuration store *)

(** The Python values [json] reads and writes; an object stands for a
    [dict], its keys in insertion order. Numbers are integers, as the two
    add forms produce them; floats are not modelled. *)
#[warnings="-register-all"] Inductive json : Type :=
  | JNull
  | JBool (b : bool)
  | JInt (n : Z)
  | JStr (s : string)
  | JArr (items : list json)
  | JObj (fields : list (string * json)).

(** [json.dumps] / [json.dump] and [json.load], on documents of a type the
    codec chooses. *)
Class JsonCodec : Type := {
  document : Type;
  json_dumps : json -> document;
  json_load : document -> result json
}.

Fixpoint obj_get (fields : list (string * json)) (key : string) : option json :=
  match fields with
  | [] => None
  | (k, v) :: rest => if bool_decide (k = key) then Some v else obj_get rest key
  end.

(** The truth value of a Python value. *)
Definition truthy (v : json) : bool :=
  match v with
  | JNull => false
  | JBool b => b
  | JInt n => negb (n =? 0)%Z
  | JStr "" => false
  | JStr _ => true
  | JArr [] => false
  | JArr _ => true
  | JObj [] => false
  | JObj _ => true
  end.

Definition type_name (v : json) : string :=
  match v with
  | JNull => "NoneType"
  | JBool _ => "bool"
  | JInt _ => "int"
  | JStr _ => "str"
  | JArr _ => "list"
  | JObj _ => "dict"
  end.

(** ['folders' in v] for a list ([==] on its items) and for a string
    (a substring test). *)
Fixpoint contains (needle hay : string) : bool :=
  String.prefix needle hay ||
  match hay with
  | EmptyString => false
  | String _ hay' => contains needle hay'
  end.

Definition is_str (t : string) (v : json) : bool :=
  match v with JStr t' => bool_decide (t' = t) | _ => false end.

(** [{'folders': folders}] *)
Definition config_of (folders : json) : json := JObj [("folders", folders)].

(** The dictionary built by the two add forms, lines 144-153 and 233-242;
    an empty end column is stored as [None]. *)
Definition new_folder (folder_name folder_path start_col end_col : string)
    (warning_days stability_days : Z) : json :=
  JObj [ ("name", JStr folder_name);
         ("path", JStr folder_path);
         ("rule", JObj [ ("start_column", JStr start_col);
                         ("end_column", if truthy (JStr end_col) then JStr end_col else JNull);
                         ("warning_days", JInt warning_days);
                         ("stability_days", JInt stability_days) ]) ].

(** How [process_tables] reads one entry: [folder_config['name']],
    [folder_config['path']], [folder_config['rule'][...]]. *)
Definition rule_of_json (v : json) : option Rule :=
  match v with
  | JObj fields =>
      match obj_get fields "start_column", obj_get fields "end_column",
            obj_get fields "warning_days", obj_get fields "stability_days" with
      | Some (JStr s), Some e, Some (JInt wd), Some (JInt sd) =>
          match e with
          | JNull => Some (mkRule s None wd sd)
          | JStr c => Some (mkRule s (Some c) wd sd)
          | _ => None
          end
      | _, _, _, _ => None
      end
  | _ => None
  end.

Definition folder_of_json (v : json) : option FolderEntry :=
  match v with
  | JObj fields =>
      match obj_get fields "name", obj_get fields "path", obj_get fields "rule" with
      | Some (JStr n), Some (JStr p), Some r =>
          match rule_of_json r with
          | Some r' => Some (mkFolder n p r')
          | None => None
          end
      | _, _, _ => None
      end
  | _ => None
  end.

Section Store.
Context `{JsonCodec}.

(** The file [config.json]: its content when it exists, and the exception
    that opening it for writing raises, if any. *)
Record disk : Type := mkDisk {
  content : option document;
  write_fault : option string
}.

(** [st.session_state.folders], the disk, and the messages shown by
    [st.error]. *)
Record session : Type := mkSession {
  folders : json;
  storage : disk;
  shown : list string
}.

(** [load_config()]: the folder list and the messages shown. *)
Definition load_config (d : disk) : json * list string :=
  match content d with
  | None => (JArr [], [])
  | Some doc =>
      match json_load doc with
      | Raised msg => (JArr [], ["读取配置文件出错：" +:+ msg])
      | Ok (JObj fields) => (default (JArr []) (obj_get fields "folders"), [])
      | Ok v => (JArr [], ["读取配置文件出错：'" +:+ type_name v
                                     +:+ "' object has no attribute 'get'"])
      end
  end.

(** [save_config(folders)]: the disk afterwards, the value returned and the
    messages shown. *)
Definition save_config (folders : json) (d : disk) : disk * bool * list string :=
  match write_fault d with
  | None => (mkDisk (Some (json_dumps (config_of folders))) None, true, [])
  | Some msg => (d, false, ["保存配置文件出错：" +:+ msg])
  end.

Definition save_session (folders : json) (s : session) : session :=
  let '(d, _, msgs) := save_config folders (storage s) in
  mkSession folders d (app (shown s) msgs).

(** What the user can do to the configuration. *)
Inductive action : Type :=
  | Add (folder_name folder_path start_col end_col : string)
        (warning_days stability_days : Z)
  | Delete (i : nat)
  | ClearCurrent
  | ClearAll
  | Import (uploaded : document).

(** [list.pop(i)] for a position of the list. *)
Definition pop {A} (i : nat) (l : list A) : list A := take i l ++ drop (S i) l.

(** Lines 189-200: the uploaded document replaces the folder list when it
    is an object with the key ['folders']; any other document leaves the
    session as it is and shows an error. *)
Definition import_config (uploaded : document) (s : session) : session :=
  match json_load uploaded with
  | Raised msg =>
      mkSession (folders s) (storage s) (app (shown s) ["导入配置文件失败：" +:+ msg])
  | Ok (JObj fields) =>
      match obj_get fields "folders" with
      | Some v => save_session v s
      | None => mkSession (folders s) (storage s) (app (shown s) ["无效的配置文件格式！"])
      end
  | Ok (JArr items) =>
      if existsb (is_str "folders") items then
        mkSession (folders s) (storage s)
          (app (shown s) ["导入配置文件失败：list indices must be integers or slices, not str"])
      else mkSession (folders s) (storage s) (app (shown s) ["无效的配置文件格式！"])
  | Ok (JStr t) =>
      if contains "folders" t then
        mkSession (folders s) (storage s)
          (app (shown s) ["导入配置文件失败：string indices must be integers"])
      else mkSession (folders s) (storage s) (app (shown s) ["无效的配置文件格式！"])
  | Ok v =>
      mkSession (folders s) (storage s)
        (app (shown s) ["导入配置文件失败：argument of type '" +:+ type_name v
                          +:+ "' is not iterable"])
  end.

(** The handlers: the add forms (lines 143-157, 232-244), the delete
    buttons (259-262), the two clear buttons (267-274) and the import
    (189-200). An [append] on a value that is no list raises and ends the
    script run. The texts of the exceptions the interpreter raises are those
    of CPython 3.10; no property below depends on them. *)
Definition step (s : session) (a : action) : result session :=
  match a with
  | Add n p sc ec wd sd =>
      match folders s with
      | JArr items => Ok (save_session (JArr (items ++ [new_folder n p sc ec wd sd])) s)
      | v => Raised ("'" +:+ type_name v +:+ "' object has no attribute 'append'")
      end
  | Delete i =>
      match folders s with
      | JArr items =>
          if bool_decide (i < length items)%nat then Ok (save_session (JArr (pop i items)) s)
          else Ok s
      | _ => Ok s
      end
  | ClearCurrent => Ok (mkSession (JArr []) (storage s) (shown s))
  | ClearAll => Ok (save_session (JArr []) s)
  | Import uploaded => Ok (import_config uploaded s)
  end.

(** Lines 163-180: the document offered for download, when the folder list
    is not empty. *)
Definition export_config (s : session) : option document :=
  if truthy (folders s) then Some (json_dumps (config_of (folders s))) else None.

(** The persisted document is the serialisation of the folder list in
    memory. *)
Definition flushed (s : session) : Prop :=
  content (storage s) = Some (json_dumps (config_of (folders s))).

(** The folder list an action puts in place of the current one, if any: a
    delete of no entry and a rejected import put none. *)
Definition new_folders (s : session) (a : action) : option json :=
  match a with
  | Add n p sc ec wd sd =>
      match folders s with
      | JArr items => Some (JArr (items ++ [new_folder n p sc ec wd sd]))
      | _ => None
      end
  | Delete i =>
      match folders s with
      | JArr items => if bool_decide (i < length items)%nat then Some (JArr (pop i items))
                      else None
      | _ => None
      end
  | ClearCurrent => Some (JArr [])
  | ClearAll => Some (JArr [])
  | Import uploaded =>
      match json_load uploaded with
      | Ok (JObj fields) => obj_get fields "folders"
      | _ => None
      end
  end.

End Store.

(** ** Concrete libraries for the examples

    A date parser and formatter for the ISO form [YYYY-MM-DD] (any other
    non-empty text is a failure, as it is for pandas on the texts the
    examples use), [strip] on ASCII white space, a frame constructor for
    distinct column labels, an Excel writer that accepts every frame (the
    frames of the examples hold texts, numbers and nulls), and a codec
    whose documents are the values themselves. *)

Module Reference.
Local Open Scope Z_scope.

Definition digit (a : ascii) : option Z :=
  let n := Z.of_N (N_of_ascii a) in
  if (48 <=? n) && (n <=? 57) then Some (n - 48) else None.

Fixpoint number (s : string) (acc : Z) : option Z :=
  match s with
  | EmptyString => Some acc
  | String a s' =>
      match digit a with
      | Some d => number s' (10 * acc + d)
      | None => None
      end
  end.

Definition leap (y : Z) : bool :=
  ((y mod 4 =? 0) && negb (y mod 100 =? 0)) || (y mod 400 =? 0).

Definition days_in_month (y m : Z) : Z :=
  if m =? 2 then (if leap y then 29 else 28)
  else if (m =? 4) || (m =? 6) || (m =? 9) || (m =? 11) then 30 else 31.

(** Days since 1970-01-01 of a date of the proleptic Gregorian calendar. *)
Definition days_from_civil (y m d : Z) : Z :=
  let y' := if m <=? 2 then y - 1 else y in
  let era := y' / 400 in
  let yoe := y' - era * 400 in
  let mp := (m + 9) mod 12 in
  let doy := (153 * mp + 2) / 5 + d - 1 in
  let doe := yoe * 365 + yoe / 4 - yoe / 100 + doy in
  era * 146097 + doe - 719468.

Definition civil_from_days (z : Z) : Z * Z * Z :=
  let z' := z + 719468 in
  let era := z' / 146097 in
  let doe := z' - era * 146097 in
  let yoe := (doe - doe / 1460 + doe / 36524 - doe / 146096) / 365 in
  let doy := doe - (365 * yoe + yoe / 4 - yoe / 100) in
  let mp := (5 * doy + 2) / 153 in
  let d := doy - (153 * mp + 2) / 5 + 1 in
  let m := if mp <? 10 then mp + 3 else mp - 9 in
  (if m <=? 2 then yoe + era * 400 + 1 else yoe + era * 400, m, d).

Definition parse_iso (s : string) : parsed :=
  match s with
  | EmptyString => Blank
  | _ =>
      match number (substring 0 4 s) 0, number (substring 5 2 s) 0,
            number (substring 8 2 s) 0 with
      | Some y, Some m, Some d =>
          if (String.length s =? 10)%nat
             && bool_decide (substring 4 1 s = "-")
             && bool_decide (substring 7 1 s = "-")
             && (1 <=? m) && (m <=? 12) && (1 <=? d) && (d <=? days_in_month y m)
          then Parsed (days_from_civil y m d * day_ns)
          else Unparseable
      | _, _, _ => Unparseable
      end
  end.

Definition digit_char (d : Z) : ascii := ascii_of_N (Z.to_N (48 + d)).

Definition two (n : Z) : string :=
  String (digit_char (n / 10)) (String (digit_char (n mod 10)) EmptyString).

Definition strftime_iso (t : Z) : string :=
  let '(y, m, d) := civil_from_days (t / day_ns) in
  two (y / 100) +:+ two (y mod 100) +:+ "-" +:+ two m +:+ "-" +:+ two d.

Definition is_space (a : ascii) : bool :=
  let n := Z.of_N (N_of_ascii a) in
  (n =? 32) || ((9 <=? n) && (n <=? 13)).

Fixpoint lstrip (s : string) : string :=
  match s with
  | EmptyString => EmptyString
  | String a s' => if is_space a then lstrip s' else s
  end.

Fixpoint rstrip (s : string) : string :=
  match s with
  | EmptyString => EmptyString
  | String a s' =>
      match rstrip s' with
      | EmptyString => if is_space a then EmptyString else String a EmptyString
      | r => String a r
      end
  end.

Definition strip (s : string) : string := rstrip (lstrip s).

(** [pd.DataFrame(data, columns=cols)] for distinct labels: short rows are
    filled with nulls, and a widest row of another width than [cols] raises. *)
Definition frame_of_rows (data : list (list string)) (cols : list string)
  : result DataFrame :=
  match data with
  | [] => Ok (mkDataFrame cols [])
  | _ =>
      if bool_decide (foldr (fun r m => Nat.max (length r) m) 0%nat data = length cols)
      then Ok (mkDataFrame cols
                 (imap (fun i r => (i, list_to_map (zip cols (CStr <$> r)))) data))
      else Raised "columns passed do not match the data"
  end.

#[export] Instance libraries : Libraries := {|
  str_strip := strip;
  pd_DataFrame := frame_of_rows;
  parse_datetime := parse_iso;
  parse_error := fun s => "Unknown datetime string format, unable to parse: " +:+ s;
  strftime_date := strftime_iso;
  to_excel := fun _ => Ok tt
|}.

#[export] Instance codec : JsonCodec := {|
  document := json;
  json_dumps := fun v => v;
  json_load := fun d => Ok d
|}.

End Reference.

(** ** The evaluator as the specification words it

    The end date of a row under a rule, given the instant read from the
    clock: the parsed value of the end column when one is configured and is
    a column of the frame, the instant otherwise; and the elapsed days. *)

Section Specification.
Context `{Libraries}.

Definition spec_end_date (df : DataFrame) (r : Rule) (instant : Z)
    (row : gmap string cell) : cell :=
  match configured (end_column r) with
  | Some c => if has_column df c then coerce_cell (cell_at row c) else CTime instant
  | None => CTime instant
  end.

Definition spec_elapsed (df : DataFrame) (r : Rule) (instant : Z)
    (row : gmap string cell) : option Z :=
  delta_days (spec_end_date df r instant row)
             (coerce_cell (cell_at row (start_column r))).

(** Whether the rule takes its end dates from a column of the frame. *)
Definition uses_end_column (df : DataFrame) (r : Rule) : bool :=
  match configured (end_column r) with
  | Some c => has_column df c
  | None => false
  end.

(** What [elapsed_days] leaves in the store: the frame with its start
    column converted, and one more reading of the clock when the end dates
    are not a column. *)
Definition after_elapsed (r : Rule) (st : store) : store :=
  mkStore (df_set_col (frame st) (start_column r)
             (coerce_cell <$> df_col (frame st) (start_column r)))
          (if uses_end_column (frame st) r then ticks st else S (ticks st)).

(** The elapsed days of every row, all against the one [instant]. *)
Definition rule_days (df : DataFrame) (r : Rule) (instant : Z) : list (option Z) :=
  (fun row => spec_elapsed df r instant row.2) <$> rows df.

(** The warning a rule records when one of its rows is flagged. *)
Definition rule_warning (df : DataFrame) (r : Rule) (instant : Z) : warning_result :=
  {| w_mask := exceeds (warning_days r) <$> rule_days df r instant;
     w_start_col := start_column r;
     w_end_col := default "当前日期" (configured (end_column r));
     w_warning_days := warning_days r;
     w_stability_days := stability_days r;
     w_days_diff := rule_days df r instant;
     w_remaining_days := remaining (stability_days r) <$> rule_days df r instant |}.

(** The warnings [process_date_warnings] returns for one rule. *)
Definition rule_warnings (df : DataFrame) (r : Rule) (instant : Z) : list warning_result :=
  if has_column df (start_column r) then
    (if any (w_mask (rule_warning df r instant)) then [rule_warning df r instant] else [])
  else [].

(** The store after [process_date_warnings] for one rule. *)
Definition after_rule (r : Rule) (st : store) : store :=
  if has_column (frame st) (start_column r) then after_elapsed r st else st.

(** The frame after lines 333-337: the start column converted, then written
    back as text. *)
Definition start_formatted (r : Rule) (df : DataFrame) : DataFrame :=
  if has_column df (start_column r) then
    df_set_col (df_set_col df (start_column r) (coerce_cell <$> df_col df (start_column r)))
               (start_column r)
               (dt_strftime (coerce_cell <$> df_col df (start_column r)))
  else df.

End Specification.

(** ** The report row of a flagged row *)

(** Whether a flagged row with the remaining days [rm] stays in the report:
    its status is not the normal one. *)
Definition reported (rm : option Z) : bool :=
  negb (cell_is_str NORMAL (CStr (status_of (num_cell rm)))).

(** The row with its three added columns. *)
Definition decorated (row : nat * gmap string cell) (d rm : option Z)
  : nat * gmap string cell :=
  (row.1, <[COL_STATUS := CStr (status_of (num_cell rm))]>
            (<[COL_REMAINING := num_cell rm]>
               (<[COL_ELAPSED := num_cell d]> row.2))).

(** ** Views of the pipeline used by its properties *)

Section Views.
Context `{Libraries}.
Variable w : world.

(** Whether the extractor returns no table for a file. *)
Definition no_tables (f : file) : bool :=
  match (extract_tables_from_word w f).1 with [] => true | _ => false end.

(** The tables of a file, tagged as the loop over the files tags them. *)
Definition tagged_tables (folder_name : string) (f : file) : list DataFrame :=
  tag_table f folder_name <$> (extract_tables_from_word w f).1.

(** Whether a folder gives no table: its path is missing, or none of its
    files (if it has any) gives one. *)
Definition yields_no_data (fc : FolderEntry) : bool :=
  negb (path_exists w (path fc))
  || match folder_tables (scan_files w (name fc) (rglob_docx w (path fc))) with
     | [] => true
     | _ => false
     end.

End Views.


Definition forget_messages (st : run) : run :=
  mkRun (all_tables st) (all_warning_samples st) (status st) [] (clock_reads st).



#[global] Instance file_eq_dec : EqDecision file.
Proof. solve_decision. Defined.

(** The world in which opening the file [f0] has the outcome [d]. *)
Definition with_document (w : world) (f0 : file)
    (d : result (list (list (list string)))) : world :=
  {| path_exists := path_exists w;
     rglob_docx := rglob_docx w;
     open_document := fun f => if decide (f = f0) then d else open_document w f;
     now := now w |}.

(** ** Worlds and frames of the examples *)

Module Examples.
Import Reference.

(** A frame of one row whose start date is 2020-01-01. *)
Definition one_row : DataFrame :=
  mkDataFrame ["start"] [(0, {["start" := CStr "2020-01-01"]})].


Definition rule_a : Rule := mkRule "start" None 180 365.
Definition rule_b : Rule := mkRule "start" None 100 365.
Definition rule_other : Rule := mkRule "begin" None 180 365.

(** A clock whose first reading is the last nanosecond of the 200th day
    after 2020-01-01, each later reading one nanosecond after the one
    before. *)
Definition midnight_world : world :=
  {| path_exists := fun _ => false;
     rglob_docx := fun _ => [];
     open_document := fun _ => Raised "no such file";
     now := fun n => (18462 * day_ns + day_ns - 1 + Z.of_nat n)%Z |}.

(** A laboratory share: folder F has a good document and one that does
    not open; folder G has only a document that does not open; the
    document of folder B has an end date that is no date; the document of
    folder Z opens and has no table; [/data/empty] has no document and
    [/data/missing] does not exist. The clock stands at noon of the 340th
    day after 2020-01-01. *)
Definition file_a : file := mkFile "/data/F/a.docx" "a.docx".
Definition file_b : file := mkFile "/data/F/b.docx" "b.docx".
Definition file_c : file := mkFile "/data/G/c.docx" "c.docx".
Definition file_d : file := mkFile "/data/B/d.docx" "d.docx".
Definition file_e : file := mkFile "/data/Z/e.docx" "e.docx".

Definition lab_world : world :=
  {| path_exists := fun p =>
       bool_decide (p ∈ ["/data/F"; "/data/G"; "/data/B"; "/data/Z"; "/data/empty"]);
     rglob_docx := fun p =>
       if bool_decide (p = "/data/F") then [file_a; file_b]
       else if bool_decide (p = "/data/G") then [file_c]
       else if bool_decide (p = "/data/B") then [file_d]
       else if bool_decide (p = "/data/Z") then [file_e]
       else [];
     open_document := fun f =>
       if bool_decide (f = file_a) then
         Ok [ [ ["sample"; "start"];
                ["S1"; " 2020-01-01 "];
                ["S2"; "2020-06-01"] ] ]
       else if bool_decide (f = file_d) then
         Ok [ [ ["sample"; "start"; "end"];
                ["S1"; "2020-01-01"; "2021-06-01"];
                ["S2"; "2020-01-01"; "pending"] ] ]
       else if bool_decide (f = file_e) then Ok []
       else Raised "Package not found";
     now := fun _ => (18602 * day_ns + 43200000000000)%Z |}.

Definition folder_F : FolderEntry := mkFolder "F" "/data/F" rule_a.
Definition folder_G : FolderEntry := mkFolder "G" "/data/G" rule_a.
Definition folder_B : FolderEntry :=
  mkFolder "B" "/data/B" (mkRule "start" (Some "end") 180 365).
Definition folder_Z : FolderEntry := mkFolder "Z" "/data/Z" rule_a.
Definition folder_missing : FolderEntry := mkFolder "M" "/data/missing" rule_a.
Definition folder_empty : FolderEntry := mkFolder "E" "/data/empty" rule_a.

(** Sessions: one with nothing configured and nothing on disk, one with
    the folder F configured and saved. *)
Definition entry_F : json := new_folder "F" "/data/F" "start" "" 180 365.

Definition empty_session : session := mkSession (JArr []) (mkDisk None None) [].

Definition stocked_session : session :=
  mkSession (JArr [entry_F]) (mkDisk (Some (config_of (JArr [entry_F]))) None) [].

End Examples.

(** ** Views of the extractor used by its properties *)

Section ExtractorViews.
Context `{Libraries}.

(** [table_data] of lines 48-53: the texts of a table, stripped. *)
Definition table_data (table : list (list string)) : list (list string) :=
  (fun row : list string => str_strip <$> row) <$> table.

(** What lines 56-58 make of one table: nothing when it has no row, else
    the outcome of the frame constructor on its rows and header. *)
Definition table_frame (table : list (list string)) : option (result DataFrame) :=
  match table_data table with
  | [] => None
  | header :: body => Some (pd_DataFrame body header)
  end.

End ExtractorViews.

(** ** Views of the evaluator and of the run used by their properties *)

(** A column of texts and nulls. *)
Definition texts_only (l : list cell) : Prop :=
  Forall (fun c => c = CNull \/ exists s, c = CStr s) l.

(** A warning aligned with a frame of [n] rows: its three series have one
    value per row, and the mask flags a row. *)
Definition aligned (n : nat) (wr : warning_result) : Prop :=
  length (w_mask wr) = n
  /\ length (w_days_diff wr) = n
  /\ length (w_remaining_days wr) = n
  /\ any (w_mask wr) = true.

(** A row of a report: its status is "overdue" or "near". *)
Definition warning_row (x : nat * gmap string cell) : Prop :=
  cell_at x.2 COL_STATUS = CStr OVERDUE \/ cell_at x.2 COL_STATUS = CStr NEAR.

(** Whether the path of a folder exists and holds no document. *)
Definition is_empty_folder (w : world) (fc : FolderEntry) : bool :=
  path_exists w (path fc)
  && match rglob_docx w (path fc) with [] => true | _ => false end.

Section RunViews.
Context `{Libraries}.
Variable w : world.

(** Whether line 327 is reached with a list that is not empty: the path of
    the folder exists and one of its documents gives no table. *)
Definition records_failed_files (fc : FolderEntry) : bool :=
  path_exists w (path fc)
  && match failed_files (scan_files w (name fc) (rglob_docx w (path fc))) with
     | [] => false
     | _ => true
     end.

(** The tables of the documents of a folder have distinct column labels
    each: pandas merges such frames, and reads a label of theirs as one
    column. *)
Definition distinct_labels (fc : FolderEntry) : Prop :=
  Forall (fun df => NoDup (columns df))
         (folder_tables (scan_files w (name fc) (rglob_docx w (path fc)))).

End RunViews.

(** ** More documents for the examples *)

Module MoreExamples.
Import Reference Examples.

(** A document with three tables: a good one, one without rows, and one
    whose row is wider than its header. *)
Definition file_x : file := mkFile "/data/X/x.docx" "x.docx".
Definition good_table : list (list string) := [["a"; "b"]; ["1"; "2"]].
Definition wide_table : list (list string) := [["a"]; ["1"; "2"]].

Definition three_tables_world : world :=
  with_document lab_world file_x (Ok [good_table; []; wide_table]).

Definition two_tables_world : world :=
  with_document lab_world file_x (Ok [good_table; []; good_table]).

(** Three folders with the one name F: the first is folder G's share,
    whose only document does not open; the second is folder F's; the last
    is folder B's share, whose only document gives a table. *)
Definition folder_F_first : FolderEntry := mkFolder "F" "/data/G" rule_a.
Definition folder_F_last : FolderEntry := mkFolder "F" "/data/B" rule_a.

(** The laboratory share when the second document of folder F opens and
    has no table. *)
Definition quiet_world : world := with_document lab_world file_b (Ok []).

(** The merged frame of folder B, whose end column has a text that is no
    date. *)
Definition merged_B : DataFrame :=
  match pd_concat (folder_tables (scan_files lab_world "B" [file_d])) with
  | Ok df => df
  | Raised _ => mkDataFrame [] []
  end.

(** The frame of the good table, and the merged frame of folder F. *)
Definition good_frame : DataFrame :=
  match frame_of_rows [["1"; "2"]] ["a"; "b"] with
  | Ok df => df
  | Raised _ => mkDataFrame [] []
  end.

Definition merged_F : DataFrame :=
  match pd_concat (folder_tables (scan_files lab_world "F" [file_a; file_b])) with
  | Ok df => df
  | Raised _ => mkDataFrame [] []
  end.

(** Two rows with an end column: the first ends 517 days after it starts,
    the end of the second is no date. The rule [rule_c] reads its end
    dates from that column. *)
Definition dated_rows : DataFrame :=
  mkDataFrame ["start"; "end"]
    [(0, {["start" := CStr "2020-01-01"; "end" := CStr "2021-06-01"]});
     (1, {["start" := CStr "2020-01-01"; "end" := CStr "pending"]})].


(** A warning on [dated_rows] that flags the first row, 517 days old
    with -152 remaining days. *)
Definition dated_warning : warning_result :=
  mkWarning [true; false] "start" "end" 180 365
            [Some 517%Z; None] [Some (-152)%Z; None].

(** The warnings of the one-row frame against the clock of the
    laboratory. *)
Definition one_row_warnings : list warning_result :=
  match (process_date_warnings lab_world [rule_a] (mkStore one_row 0)).2 with
  | Ok wrs => wrs
  | Raised _ => []
  end.

(** The report of the laboratory for a folder that is missing and
    folder F. *)
Definition lab_report : report :=
  match process_tables lab_world [folder_missing; folder_F] with
  | Ok rep => rep
  | Raised _ => mkReport (mkStatus [] [] [] ∅) [] None None ∅ NoWarnings
  end.

(** A session whose file cannot be written. *)
Definition read_only_session : session :=
  mkSession (JArr []) (mkDisk None (Some "Permission denied")) [].

End MoreExamples.

(** * Properties *)

Local Open Scope list_scope.

(** ** Frames *)

Lemma add_column_present (cols : list string) (c : string) :
  c ∈ cols -> add_column cols c = cols.
Proof. intros Hin. unfold add_column. by rewrite bool_decide_eq_true_2. Qed.

Lemma elem_of_add_column (cols : list string) (c c' : string) :
  c' ∈ add_column cols c <-> c' ∈ cols \/ c' = c.
Proof.
  unfold add_column. case_bool_decide as Hc.
  - split; [by left | intros [?| ->]; done].
  - rewrite elem_of_app, list_elem_of_singleton. done.
Qed.

Lemma has_column_set_col (df : DataFrame) (c c' : string) (vals : list cell) :
  has_column (df_set_col df c vals) c' = has_column df c' || bool_decide (c' = c).
Proof.
  unfold has_column. simpl. rewrite <- bool_decide_or.
  apply bool_decide_ext, elem_of_add_column.
Qed.

Lemma length_rows_set_col (df : DataFrame) (c : string) (vals : list cell) :
  length vals = length (rows df) ->
  length (rows (df_set_col df c vals)) = length (rows df).
Proof. intros Hlen. simpl. rewrite length_zip_with. lia. Qed.

Lemma labels_set_col (df : DataFrame) (c : string) (vals : list cell) :
  length vals = length (rows df) ->
  (rows (df_set_col df c vals)).*1 = (rows df).*1.
Proof.
  simpl. generalize (rows df). intros l. revert vals.
  induction l as [|r l IH]; intros [|v vals] Hlen; simpl in *; try done.
  f_equal. apply IH. lia.
Qed.

Lemma df_col_set_col_eq (df : DataFrame) (c : string) (vals : list cell) :
  length vals = length (rows df) ->
  df_col (df_set_col df c vals) c = vals.
Proof.
  unfold df_col. simpl. generalize (rows df). intros l. revert vals.
  induction l as [|r l IH]; intros [|v vals] Hlen; simpl in *; try done.
  f_equal.
  - unfold cell_at. by rewrite lookup_insert_eq.
  - apply IH. lia.
Qed.

Lemma df_col_set_col_ne (df : DataFrame) (c c' : string) (vals : list cell) :
  c <> c' ->
  length vals = length (rows df) ->
  df_col (df_set_col df c vals) c' = df_col df c'.
Proof.
  intros Hne. unfold df_col. simpl. generalize (rows df). intros l. revert vals.
  induction l as [|r l IH]; intros [|v vals] Hlen; simpl in *; try done.
  f_equal.
  - unfold cell_at. by rewrite lookup_insert_ne.
  - apply IH. lia.
Qed.

Lemma length_df_col (df : DataFrame) (c : string) :
  length (df_col df c) = length (rows df).
Proof. unfold df_col. by rewrite length_fmap. Qed.

Lemma df_col_lookup (df : DataFrame) (c : string) (i : nat) (r : nat * gmap string cell) :
  rows df !! i = Some r -> df_col df c !! i = Some (cell_at r.2 c).
Proof. intros Hr. unfold df_col. by rewrite list_lookup_fmap, Hr. Qed.

(** ** Selection by a mask *)

Lemma elem_of_select {A} (mask : list bool) (l : list A) (x : A) :
  x ∈ select mask l <-> exists i, mask !! i = Some true /\ l !! i = Some x.
Proof.
  revert l. induction mask as [|b mask IH]; intros [|y l]; simpl.
  - split; [by intros ?%elem_of_nil | by intros (i & ? & ?)].
  - split; [by intros ?%elem_of_nil | by intros (i & ? & ?)].
  - split; [by intros ?%elem_of_nil | by intros (i & ? & ?)].
  - destruct b.
    + rewrite elem_of_cons, IH. split.
      * intros [-> | (i & ? & ?)]; [by exists 0 | by exists (S i)].
      * intros ([|i] & Hm & Hl); simpl in *; [left; congruence | right; eauto].
    + rewrite IH. split.
      * intros (i & ? & ?). by exists (S i).
      * intros ([|i] & Hm & Hl); simpl in *; [congruence | eauto].
Qed.

Lemma select_fmap {A B} (f : A -> B) (mask : list bool) (l : list A) :
  select mask (f <$> l) = f <$> select mask l.
Proof.
  revert l. induction mask as [|b mask IH]; intros [|y l]; simpl; try done.
  destruct b; simpl; by rewrite IH.
Qed.

Lemma length_select_same {A B} (mask : list bool) (l : list A) (k : list B) :
  length l = length k -> length (select mask l) = length (select mask k).
Proof.
  revert l k. induction mask as [|b mask IH]; intros [|x l] [|y k] Hlen;
    simpl in *; try done.
  destruct b; simpl; rewrite (IH l k); lia.
Qed.

(** ** Dates *)

Section DateFacts.
Context `{Libraries}.

Lemma to_datetime_cell_coerce (c : cell) :
  to_datetime_cell ErrorsCoerce c = Ok (coerce_cell c).
Proof.
  unfold coerce_cell. destruct c as [s| | |]; simpl; try done.
  by destruct (parse_datetime s).
Qed.

Lemma to_datetime_coerce (l : list cell) :
  to_datetime ErrorsCoerce l = Ok (coerce_cell <$> l).
Proof.
  induction l as [|c l IH]; simpl; [done|].
  by rewrite to_datetime_cell_coerce, IH.
Qed.

Lemma coerce_cell_shape (c : cell) :
  coerce_cell c = CNull \/ exists t, coerce_cell c = CTime t.
Proof.
  unfold coerce_cell. destruct c as [s| | |]; simpl; eauto.
  destruct (parse_datetime s); eauto.
Qed.

Lemma coerce_cell_idemp (c : cell) : coerce_cell (coerce_cell c) = coerce_cell c.
Proof. destruct (coerce_cell_shape c) as [-> | [t ->]]; done. Qed.

(** A converted column is read again by the default mode without error. *)
Lemma to_datetime_raise_coerced (l : list cell) :
  to_datetime ErrorsRaise (coerce_cell <$> l) = Ok (coerce_cell <$> l).
Proof.
  induction l as [|c l IH]; [done|].
  rewrite fmap_cons. cbn [to_datetime]. rewrite IH.
  destruct (coerce_cell_shape c) as [-> | [t ->]]; done.
Qed.

Lemma length_to_datetime (mode : errors_mode) (l l' : list cell) :
  to_datetime mode l = Ok l' -> length l' = length l.
Proof.
  revert l'. induction l as [|c l IH]; intros l'; simpl.
  - by intros [= <-].
  - destruct (to_datetime_cell mode c); [|done].
    destruct (to_datetime mode l); [|done].
    intros [= <-]. simpl. f_equal. by apply IH.
Qed.

End DateFacts.

(** ** The evaluator *)

Ltac run_m :=
  unfold bind, ret, lift, get, put, read_col, read_has_column, set_frame_col,
    timestamp_now; simpl.

Section EvaluatorFacts.
Context `{Libraries}.
Variable w : world.

Lemma zip_with_fmap_same {A B C D} (f : B -> C -> D) (g : A -> B) (h : A -> C)
    (l : list A) :
  zip_with f (g <$> l) (h <$> l) = (fun x => f (g x) (h x)) <$> l.
Proof. induction l as [|x l IH]; [done|]. cbn. f_equal. exact IH. Qed.

Lemma elapsed_days_run (r : Rule) (st : store) :
  has_column (frame st) (start_column r) = true ->
  elapsed_days w r st =
    (after_elapsed r st, Ok (rule_days (frame st) r (now w (ticks st)))).
Proof.
  intros Hstart. unfold elapsed_days, after_elapsed, rule_days. run_m.
  rewrite to_datetime_coerce. simpl.
  set (starts := coerce_cell <$> df_col (frame st) (start_column r)).
  assert (Hlen : length starts = length (rows (frame st))).
  { unfold starts. by rewrite length_fmap, length_df_col. }
  assert (Hsame : forall c,
             has_column (df_set_col (frame st) (start_column r) starts) c
             = has_column (frame st) c).
  { intros c. rewrite has_column_set_col. case_bool_decide as Hc; [|by rewrite orb_false_r].
    subst c. by rewrite Hstart. }
  unfold get_end_dates, uses_end_column, spec_elapsed, spec_end_date. run_m.
  destruct (configured (end_column r)) as [c|] eqn:Hcfg; run_m.
  - rewrite Hsame. destruct (has_column (frame st) c) eqn:Hc; run_m.
    + rewrite to_datetime_coerce. simpl. rewrite df_col_set_col_eq by done.
      do 2 f_equal.
      destruct (decide (start_column r = c)) as [<-|Hne].
      * rewrite df_col_set_col_eq by done. unfold starts, df_col.
        rewrite <- !list_fmap_compose. rewrite zip_with_fmap_same.
        apply list_fmap_ext. intros i row _. simpl. by rewrite coerce_cell_idemp.
      * rewrite df_col_set_col_ne by done. unfold starts, df_col.
        rewrite <- !list_fmap_compose. by rewrite zip_with_fmap_same.
    + rewrite df_col_set_col_eq by done. do 2 f_equal.
      unfold starts, df_col. by rewrite <- !list_fmap_compose.
  - rewrite df_col_set_col_eq by done. do 2 f_equal.
    unfold starts, df_col. by rewrite <- !list_fmap_compose.
Qed.

Lemma eval_rule_skip (r : Rule) (acc : list warning_result) (st : store) :
  has_column (frame st) (start_column r) = false ->
  eval_rule w r acc st = (st, Ok acc).
Proof. intros Hno. unfold eval_rule. run_m. by rewrite Hno. Qed.

Lemma eval_rule_run (r : Rule) (acc : list warning_result) (st : store) :
  has_column (frame st) (start_column r) = true ->
  eval_rule w r acc st =
    (after_elapsed r st,
     Ok (let wr := rule_warning (frame st) r (now w (ticks st)) in
         if any (w_mask wr) then app acc [wr] else acc)).
Proof.
  intros Hstart. unfold eval_rule, bind at 1. unfold read_has_column at 1.
  rewrite Hstart. simpl. unfold bind at 1. rewrite elapsed_days_run by done.
  simpl. unfold rule_warning. simpl.
  by destruct (any (exceeds (warning_days r) <$> rule_days (frame st) r (now w (ticks st)))).
Qed.

(** With dates parsed cell by cell and exact arithmetic, the loop over the
    rules raises nothing. *)
Lemma process_rules_ok (rules : list Rule) (acc : list warning_result) (st : store) :
  exists st' wrs, process_rules w rules acc st = (st', Ok wrs).
Proof.
  revert acc st. induction rules as [|r rules IH]; intros acc st; simpl.
  - by exists st, acc.
  - unfold bind. destruct (has_column (frame st) (start_column r)) eqn:Hs.
    + rewrite eval_rule_run by done. apply IH.
    + rewrite eval_rule_skip by done. apply IH.
Qed.

Lemma process_date_warnings_run (r : Rule) (st : store) :
  process_date_warnings w [r] st
  = (after_rule r st, Ok (rule_warnings (frame st) r (now w (ticks st)))).
Proof.
  unfold process_date_warnings, after_rule, rule_warnings. simpl. unfold bind.
  destruct (has_column (frame st) (start_column r)) eqn:Hs.
  - rewrite eval_rule_run by done. simpl. by destruct (any _).
  - by rewrite eval_rule_skip.
Qed.

Lemma has_column_after_rule (r : Rule) (st : store) (c : string) :
  has_column (frame (after_rule r st)) c = has_column (frame st) c.
Proof.
  unfold after_rule. destruct (has_column (frame st) (start_column r)) eqn:Hs; [|done].
  simpl. rewrite has_column_set_col. case_bool_decide as Hc; [|by rewrite orb_false_r].
  subst c. by rewrite Hs.
Qed.

Lemma has_column_start_formatted (r : Rule) (df : DataFrame) (c : string) :
  has_column (start_formatted r df) c = has_column df c.
Proof.
  unfold start_formatted. destruct (has_column df (start_column r)) eqn:Hs; [|done].
  rewrite !has_column_set_col. case_bool_decide as Hc; [|by rewrite !orb_false_r].
  subst c. by rewrite Hs.
Qed.

(** Lines 333-354 in closed form: the only step that can raise is the
    conversion, in the default mode, of the end column. *)
Lemma evaluate_folder_run (r : Rule) (st : store) :
  evaluate_folder w r st =
    let wrs := rule_warnings (frame st) r (now w (ticks st)) in
    let fr := start_formatted r (frame st) in
    let n := ticks (after_rule r st) in
    if uses_end_column (frame st) r then
      match to_datetime ErrorsRaise (df_col fr (default "" (configured (end_column r)))) with
      | Ok dates =>
          let fr' := df_set_col fr (default "" (configured (end_column r)))
                                (dt_strftime dates) in
          (mkStore fr' n, Ok (collect_warnings fr' wrs))
      | Raised msg => (mkStore fr n, Raised msg)
      end
    else (mkStore fr n, Ok (collect_warnings fr wrs)).
Proof.
  unfold evaluate_folder. unfold bind at 1. rewrite process_date_warnings_run.
  unfold bind at 1. unfold read_has_column at 1. rewrite has_column_after_rule.
  assert (Hfmt :
    (if has_column (frame st) (start_column r)
     then format_column (start_column r) else ret tt) (after_rule r st)
    = (mkStore (start_formatted r (frame st)) (ticks (after_rule r st)), Ok tt)).
  { unfold start_formatted, after_rule.
    destruct (has_column (frame st) (start_column r)) eqn:Hs; [|by destruct st].
    unfold format_column, after_elapsed. run_m.
    rewrite df_col_set_col_eq by (by rewrite length_fmap, length_df_col).
    by rewrite to_datetime_raise_coerced. }
  unfold bind at 1. rewrite Hfmt. clear Hfmt.
  unfold uses_end_column.
  destruct (configured (end_column r)) as [c|] eqn:Hcfg; simpl.
  - unfold bind at 1. unfold bind at 1. unfold read_has_column at 1. simpl.
    rewrite has_column_start_formatted.
    destruct (has_column (frame st) c) eqn:Hc.
    + unfold format_column. run_m.
      by destruct (to_datetime ErrorsRaise (df_col (start_formatted r (frame st)) c)).
    + by run_m.
  - by run_m.
Qed.

End EvaluatorFacts.

Section EvaluatorClaims.
Context `{Libraries}.
Variable w : world.

Lemma process_rules_app (l1 l2 : list Rule) (acc : list warning_result) (st : store) :
  process_rules w (l1 ++ l2) acc st =
    (wrs <- process_rules w l1 acc;; process_rules w l2 wrs) st.
Proof.
  revert acc st. induction l1 as [|r l1 IH]; intros acc st; simpl.
  - done.
  - unfold bind in *. destruct (eval_rule w r acc st) as [st1 [acc1|msg]]; [|done].
    by rewrite IH.
Qed.

Lemma eval_rule_columns (r : Rule) (acc : list warning_result) (st st' : store)
    (res : result (list warning_result)) :
  eval_rule w r acc st = (st', res) -> columns (frame st') = columns (frame st).
Proof.
  destruct (has_column (frame st) (start_column r)) eqn:Hs.
  - rewrite eval_rule_run by done. intros [= <- _]. simpl.
    apply add_column_present. unfold has_column in Hs. by apply bool_decide_eq_true in Hs.
  - rewrite eval_rule_skip by done. by intros [= <- _].
Qed.

Lemma process_rules_columns (rules : list Rule) (acc : list warning_result)
    (st st' : store) (res : result (list warning_result)) :
  process_rules w rules acc st = (st', res) -> columns (frame st') = columns (frame st).
Proof.
  revert acc st. induction rules as [|r rules IH]; intros acc st; simpl.
  - by intros [= <- _].
  - unfold bind. destruct (eval_rule w r acc st) as [st1 [acc1|msg]] eqn:He.
    + intros Hrest. rewrite (IH _ _ Hrest). by eapply eval_rule_columns.
    + intros [= <- _]. by eapply eval_rule_columns.
Qed.

(** C9. A rule whose start column is not a column of the dataset is skipped
    in silence: alone, it leaves the dataset and the clock untouched and
    yields no warning result, without raising; anywhere in a list of rules,
    the evaluator behaves as if the rule were not in the list. *)
Theorem missing_start_column_is_skipped (r : Rule) (before after : list Rule)
    (st : store) :
  has_column (frame st) (start_column r) = false ->
  process_date_warnings w [r] st = (st, Ok [])
  /\ process_date_warnings w (before ++ r :: after) st
     = process_date_warnings w (before ++ after) st.
Proof.
  intros Hno. split.
  - unfold process_date_warnings. simpl. unfold bind.
    by rewrite eval_rule_skip.
  - unfold process_date_warnings. rewrite !process_rules_app. unfold bind.
    destruct (process_rules w before [] st) as [st1 [acc1|msg]] eqn:Hb; [|done].
    simpl. unfold bind. rewrite eval_rule_skip; [done|].
    unfold has_column in *. by rewrite (process_rules_columns _ _ _ _ _ Hb).
Qed.


End EvaluatorClaims.

(** ** Classification of the flagged rows *)

Lemma select_nil_r {A} (mask : list bool) : select mask (@nil A) = [].
Proof. by destruct mask. Qed.

Lemma select_zip_with {A B C} (f : A -> B -> C) (mask : list bool)
    (l : list A) (k : list B) :
  select mask (zip_with f l k) = zip_with f (select mask l) (select mask k).
Proof.
  revert l k. induction mask as [|b mask IH]; intros [|x l] [|y k]; simpl; try done.
  - destruct b; simpl; [done | by destruct (select mask l)].
  - destruct b; simpl; by rewrite IH.
Qed.

Lemma elem_of_select_select {A} (mask keep : list bool) (l : list A) (x : A) :
  x ∈ select (select mask keep) (select mask l)
  <-> exists i, mask !! i = Some true /\ keep !! i = Some true /\ l !! i = Some x.
Proof.
  revert keep l. induction mask as [|b mask IH]; intros keep l.
  - simpl. split; [by intros ?%elem_of_nil | by intros (i & ? & _)].
  - destruct keep as [|k keep].
    { simpl. split; [by intros ?%elem_of_nil | by intros (i & _ & ? & _)]. }
    destruct l as [|y l].
    { replace (select (b :: mask) (@nil A)) with (@nil A) by done.
      rewrite select_nil_r.
      split; [by intros ?%elem_of_nil | by intros (i & _ & _ & ?)]. }
    destruct b; simpl.
    + destruct k.
      * rewrite elem_of_cons, IH. split.
        -- intros [-> | (i & ? & ? & ?)]; [by exists 0 | by exists (S i)].
        -- intros ([|i] & Hm & Hk & Hl); simpl in *; [left; congruence | right; eauto].
      * rewrite IH. split.
        -- intros (i & ? & ? & ?). by exists (S i).
        -- intros ([|i] & Hm & Hk & Hl); simpl in *; [congruence | eauto].
    + rewrite IH. split.
      * intros (i & ? & ? & ?). by exists (S i).
      * intros ([|i] & Hm & Hk & Hl); simpl in *; [congruence | eauto].
Qed.

(** The rows of [warning_samples]: the rows of the frame that the mask
    flags and whose status is not the normal one, each with its elapsed
    days, remaining days and status. *)
Lemma elem_of_warning_samples (fm : DataFrame) (wr : warning_result)
    (x : nat * gmap string cell) :
  length (w_mask wr) = length (rows fm) ->
  length (w_days_diff wr) = length (rows fm) ->
  length (w_remaining_days wr) = length (rows fm) ->
  x ∈ rows (warning_samples fm wr)
  <-> exists i row d rm,
        w_mask wr !! i = Some true /\ rows fm !! i = Some row
        /\ w_days_diff wr !! i = Some d /\ w_remaining_days wr !! i = Some rm
        /\ reported rm = true /\ x = decorated row d rm.
Proof.
  intros Hm Hd Hr. unfold warning_samples.
  set (m := w_mask wr). set (D := w_days_diff wr). set (Rm := w_remaining_days wr).
  set (ws1 := df_set_col (df_select fm m) COL_ELAPSED (num_cell <$> select m D)).
  set (ws2 := df_set_col ws1 COL_REMAINING (num_cell <$> select m Rm)).
  assert (Hlen1 : length (rows ws1) = length (select m (rows fm))).
  { unfold ws1. simpl. rewrite length_zip_with_l_eq; [done|].
    rewrite length_fmap. apply length_select_same; first [exact Hd | symmetry; exact Hd]. }
  assert (Hcol2 : df_col ws2 COL_REMAINING = num_cell <$> select m Rm).
  { unfold ws2. apply df_col_set_col_eq. rewrite length_fmap, Hlen1.
    apply length_select_same; first [exact Hr | symmetry; exact Hr]. }
  rewrite Hcol2.
  set (ws3 := df_set_col ws2 COL_STATUS
                ((fun x => CStr (status_of x)) <$> (num_cell <$> select m Rm))).
  assert (Hlen2 : length (rows ws2) = length (select m (rows fm))).
  { unfold ws2. cbn [rows df_set_col]. rewrite length_zip_with_l_eq; [exact Hlen1|].
    rewrite length_fmap, Hlen1.
    apply length_select_same; first [exact Hr | symmetry; exact Hr]. }
  assert (Hcol3 : df_col ws3 COL_STATUS
                  = (fun x => CStr (status_of x)) <$> (num_cell <$> select m Rm)).
  { unfold ws3. apply df_col_set_col_eq. rewrite !length_fmap, Hlen2.
    apply length_select_same; first [exact Hr | symmetry; exact Hr]. }
  rewrite Hcol3. unfold df_select at 1. simpl.
  rewrite <- !list_fmap_compose, <- !select_fmap, <- !select_zip_with.
  rewrite elem_of_select_select. fold m D Rm.
  split.
  - intros (i & Hi & Hk & Hx). exists i.
    apply lookup_zip_with_Some in Hx as (x2 & c3 & -> & Hx2 & Hc3).
    apply lookup_zip_with_Some in Hx2 as (x1 & c2 & -> & Hx1 & Hc2).
    apply lookup_zip_with_Some in Hx1 as (row & c1 & -> & Hrow & Hc1).
    apply list_lookup_fmap_Some in Hc1 as (d & -> & Hd').
    apply list_lookup_fmap_Some in Hc2 as (rm & -> & Hrm).
    apply list_lookup_fmap_Some in Hc3 as (rm' & -> & Hrm').
    apply list_lookup_fmap_Some in Hk as (rm'' & Hk & Hrm'').
    assert (rm' = rm) as -> by congruence. assert (rm'' = rm) as -> by congruence.
    exists row, d, rm. simpl in *. done.
  - intros (i & row & d & rm & Hi & Hrow & Hd' & Hrm & Hk & ->). exists i.
    split; [done|]. split.
    + rewrite list_lookup_fmap, Hrm. simpl. by f_equal.
    + apply lookup_zip_with_Some. eexists _, _. split; [|split].
      2:{ apply lookup_zip_with_Some. eexists _, _. split; [|split].
          2:{ apply lookup_zip_with_Some. eexists _, _. split; [|split]; [|exact Hrow|].
              - reflexivity.
              - by rewrite list_lookup_fmap, Hd'. }
          - reflexivity.
          - by rewrite list_lookup_fmap, Hrm. }
      * reflexivity.
      * by rewrite list_lookup_fmap, Hrm.
Qed.

Lemma reported_iff (rm : option Z) :
  reported rm = true <-> exists n, rm = Some n /\ (n <= 30)%Z.
Proof.
  unfold reported. destruct rm as [n|]; simpl.
  - unfold status_of.
    destruct (Z.leb_spec n 0); [|destruct (Z.leb_spec n 30)]; simpl.
    + split; [intros _; exists n; split; [done | lia] | done].
    + split; [intros _; exists n; split; [done | lia] | done].
    + split; [done | intros (n' & [= <-] & ?); lia].
  - split; [done | by intros (n & ? & _)].
Qed.

(** The three bands of the status. *)
Lemma status_of_bands (n : Z) :
  (status_of (CNum n) = OVERDUE <-> (n <= 0)%Z)
  /\ (status_of (CNum n) = NEAR <-> (0 < n <= 30)%Z)
  /\ (status_of (CNum n) = NORMAL <-> (30 < n)%Z).
Proof.
  unfold status_of.
  destruct (Z.leb_spec n 0); [|destruct (Z.leb_spec n 30)];
    (split; [|split]); (split; [intros Heq | intros Hn]);
    first [lia | done | by (vm_compute in Heq; discriminate Heq)].
Qed.


Section Gates.
Context `{Libraries}.


End Gates.

Section EvaluatedFrame.
Context `{Libraries}.
Variable w : world.

Lemma length_dt_strftime (l : list cell) : length (dt_strftime l) = length l.
Proof. unfold dt_strftime. by rewrite length_fmap. Qed.

Lemma labels_start_formatted (r : Rule) (df : DataFrame) :
  (rows (start_formatted r df)).*1 = (rows df).*1.
Proof.
  unfold start_formatted. destruct (has_column df (start_column r)); [|done].
  assert (Hlen : length (coerce_cell <$> df_col df (start_column r)) = length (rows df)).
  { by rewrite length_fmap, length_df_col. }
  rewrite labels_set_col.
  - by apply labels_set_col.
  - rewrite length_dt_strftime, Hlen. symmetry. by apply length_rows_set_col.
Qed.

(** The evaluation of a folder changes cells only: the frame keeps its
    index, whether the evaluation returns or raises. *)
Lemma labels_evaluate_folder (r : Rule) (st st' : store) (res : result (list DataFrame)) :
  evaluate_folder w r st = (st', res) ->
  (rows (frame st')).*1 = (rows (frame st)).*1.
Proof.
  rewrite evaluate_folder_run. cbv zeta.
  destruct (uses_end_column (frame st) r).
  - destruct (to_datetime ErrorsRaise _) as [dates|msg] eqn:Hdates.
    + intros [= <- _]. cbn [frame]. rewrite labels_set_col.
      * apply labels_start_formatted.
      * rewrite length_dt_strftime, (length_to_datetime _ _ _ Hdates).
        apply length_df_col.
    + intros [= <- _]. apply labels_start_formatted.
  - intros [= <- _]. apply labels_start_formatted.
Qed.

(** What an evaluation that returns has collected: the reported rows of
    the one warning of the rule, copied from the frame it leaves. *)
Lemma samples_evaluate_folder (r : Rule) (st st' : store) (samples : list DataFrame) :
  evaluate_folder w r st = (st', Ok samples) ->
  samples = collect_warnings (frame st') (rule_warnings (frame st) r (now w (ticks st))).
Proof.
  rewrite evaluate_folder_run. cbv zeta.
  destruct (uses_end_column (frame st) r).
  - destruct (to_datetime ErrorsRaise _) as [dates|msg]; [|done].
    by intros [= <- <-].
  - by intros [= <- <-].
Qed.


Lemma elem_of_rule_warnings (df : DataFrame) (r : Rule) (instant : Z)
    (wr : warning_result) :
  wr ∈ rule_warnings df r instant ->
  wr = rule_warning df r instant /\ has_column df (start_column r) = true.
Proof.
  unfold rule_warnings. destruct (has_column df (start_column r)).
  - destruct (any _); [|by intros ?%elem_of_nil].
    by intros ->%list_elem_of_singleton.
  - by intros ?%elem_of_nil.
Qed.



End EvaluatedFrame.

Section ParseFailure.
Context `{Libraries}.
Variable w : world.


End ParseFailure.

(** ** The evaluator on the examples *)

Module EvaluatorExamples.
Import Reference Examples MoreExamples.


Lemma missing_start_column_is_skipped_witness :
  process_date_warnings midnight_world [rule_other] (mkStore one_row 0)
    = (mkStore one_row 0, Ok [])
  /\ process_date_warnings midnight_world ([rule_a] ++ rule_other :: [rule_b])
       (mkStore one_row 0)
     = process_date_warnings midnight_world ([rule_a] ++ [rule_b]) (mkStore one_row 0).
Proof.
  apply (missing_start_column_is_skipped midnight_world rule_other [rule_a] [rule_b]
           (mkStore one_row 0)).
  vm_compute. reflexivity.
Defined.


End EvaluatorExamples.

(** ** The loop over the files of a folder *)

Section Scan.
Context `{Libraries}.
Variable w : world.

Lemma scan_file_failed (folder_name : string) (acc : folder_scan) (f : file) :
  no_tables w f = true ->
  scan_file w folder_name acc f
  = mkScan (folder_tables acc) (processed_files acc)
           (failed_files acc ++ [file_name f])
           (scan_messages acc ++ (extract_tables_from_word w f).2).
Proof.
  unfold no_tables, scan_file.
  destruct (extract_tables_from_word w f) as [[|t ts] msgs]; simpl; [done|discriminate].
Qed.

Lemma scan_file_processed (folder_name : string) (acc : folder_scan) (f : file) :
  no_tables w f = false ->
  scan_file w folder_name acc f
  = mkScan (folder_tables acc ++ tagged_tables w folder_name f)
           (S (processed_files acc)) (failed_files acc)
           (scan_messages acc ++ (extract_tables_from_word w f).2).
Proof.
  unfold no_tables, scan_file, tagged_tables.
  destruct (extract_tables_from_word w f) as [[|t ts] msgs]; simpl; [discriminate|done].
Qed.

Lemma tagged_tables_nil (folder_name : string) (f : file) :
  no_tables w f = true -> tagged_tables w folder_name f = [].
Proof.
  unfold no_tables, tagged_tables.
  by destruct ((extract_tables_from_word w f).1).
Qed.

(** The loop visits every file: each one adds its tables or its name. *)
Lemma foldl_scan_file (folder_name : string) (files : list file) (acc : folder_scan) :
  foldl (scan_file w folder_name) acc files
  = mkScan (folder_tables acc ++ concat (tagged_tables w folder_name <$> files))
           (processed_files acc + length (filter (fun f => no_tables w f = false) files))
           (failed_files acc ++ (file_name <$> filter (fun f => no_tables w f = true) files))
           (scan_messages acc
              ++ concat ((fun f => (extract_tables_from_word w f).2) <$> files)).
Proof.
  revert acc. induction files as [|f files IH]; intros acc.
  - simpl. rewrite !app_nil_r, Nat.add_0_r. by destruct acc.
  - cbn [foldl]. rewrite IH. rewrite !fmap_cons. cbn [concat].
    rewrite !filter_cons. destruct (no_tables w f) eqn:Hf.
    + rewrite scan_file_failed by done. cbn [folder_tables processed_files
        failed_files scan_messages]. rewrite tagged_tables_nil by done.
      rewrite decide_False by discriminate. rewrite decide_True by done.
      rewrite fmap_cons. cbn [app]. by rewrite <- !app_assoc.
    + rewrite scan_file_processed by done. cbn [folder_tables processed_files
        failed_files scan_messages].
      rewrite decide_True by done. rewrite decide_False by discriminate.
      cbn [length]. rewrite <- !app_assoc. f_equal. lia.
Qed.

Lemma scan_files_run (folder_name : string) (files : list file) :
  scan_files w folder_name files
  = mkScan (concat (tagged_tables w folder_name <$> files))
           (length (filter (fun f => no_tables w f = false) files))
           (file_name <$> filter (fun f => no_tables w f = true) files)
           (concat ((fun f => (extract_tables_from_word w f).2) <$> files)).
Proof. unfold scan_files. by rewrite foldl_scan_file. Qed.

End Scan.

(** ** The loop over the folders *)

Section Folders.
Context `{Libraries}.
Variable w : world.

Lemma pd_concat_ok (dfs : list DataFrame) :
  dfs <> [] -> exists df, pd_concat dfs = Ok df.
Proof. destruct dfs; [done | eauto]. Qed.

(** A concatenated frame has the index 0, 1, 2, ... *)
Lemma pd_concat_labels (dfs : list DataFrame) (df : DataFrame) :
  pd_concat dfs = Ok df -> NoDup (rows df).*1.
Proof.
  destruct dfs as [|d dfs]; [done|]. intros [= <-]. cbn [rows].
  generalize (concat (rows <$> d :: dfs)). intros l. unfold reindex.
  rewrite fmap_imap.
  rewrite (imap_ext _ (fun j _ => j)) by done.
  rewrite imap_seq_0, list_fmap_id. apply NoDup_seq.
Qed.










End Folders.

Section FailedFiles.
Context `{Libraries}.
Variable w : world.

Lemma file_errors_merge_and_evaluate (fc : FolderEntry) (scan : folder_scan) (st : run) :
  file_errors (status (merge_and_evaluate w fc scan st)) = file_errors (status st).
Proof.
  unfold merge_and_evaluate. destruct (pd_concat _); [|done].
  by destruct (evaluate_folder w (rule fc) _) as [? [?|?]].
Qed.

Lemma file_errors_finish_folder (fc : FolderEntry) (scan : folder_scan) (st : run) :
  failed_files scan <> [] ->
  file_errors (status (finish_folder w fc scan st)) !! name fc = Some (failed_files scan).
Proof.
  intros Hfailed. unfold finish_folder.
  assert (Hrec : file_errors (status (record_scan (name fc) scan st)) !! name fc
                 = Some (failed_files scan)).
  { unfold record_scan. cbn. destruct (failed_files scan); [done|].
    by rewrite lookup_insert_eq. }
  destruct (folder_tables scan); [done|].
  by rewrite file_errors_merge_and_evaluate.
Qed.



End FailedFiles.

Section EmptyState.
Context `{Libraries}.
Variable w : world.

Lemma no_data_process_folder (st : run) (fc : FolderEntry) :
  yields_no_data w fc = true ->
  all_tables (process_folder w st fc) = all_tables st
  /\ all_warning_samples (process_folder w st fc) = all_warning_samples st.
Proof.
  unfold yields_no_data, process_folder.
  destruct (path_exists w (path fc)); cbn [negb orb]; [|done].
  destruct (rglob_docx w (path fc)) as [|f files]; [done|].
  unfold finish_folder.
  by destruct (folder_tables (scan_files w (name fc) (f :: files))).
Qed.

Lemma no_data_foldl (folders : list FolderEntry) (st : run) :
  forallb (yields_no_data w) folders = true ->
  all_tables (foldl (process_folder w) st folders) = all_tables st
  /\ all_warning_samples (foldl (process_folder w) st folders) = all_warning_samples st.
Proof.
  revert st. induction folders as [|fc folders IH]; intros st Hall; [done|].
  cbn [forallb] in Hall. apply andb_true_iff in Hall as [Hfc Hall].
  cbn [foldl]. destruct (IH (process_folder w st fc) Hall) as [-> ->].
  by apply no_data_process_folder.
Qed.

(** C8. When no folder of the configuration gives a table (and so when
    the configuration has no folder at all), the run ends with a report and
    raises nothing; the merged dataset and the warning dataset are absent,
    every count of the status summary is zero, there is no warning row, and
    the warning tab shows the notice that there is no warning. *)
Theorem empty_state (folders : list FolderEntry) :
  forallb (yields_no_data w) folders = true ->
  exists rep,
    process_tables w folders = Ok rep
    /\ merged_all rep = None
    /\ combined_warnings rep = None
    /\ (forall key, summary_get (status_summary rep) key = 0)
    /\ summary_get (status_summary rep) OVERDUE = 0
    /\ summary_get (status_summary rep) NEAR = 0
    /\ length (concat (rows <$> all_warning_samples (process_folders w folders))) = 0
    /\ tab2 rep = NoWarnings.
Proof.
  intros Hall.
  destruct (no_data_foldl folders initial_run Hall) as [Ht Hw].
  unfold process_tables, build_report. fold (process_folders w folders) in Ht, Hw.
  rewrite Ht, Hw. cbn. eexists. split; [done|]. cbn.
  repeat split; try done.
Qed.

End EmptyState.

Section EmptyDocument.
Context `{Libraries}.
Variable w : world.

Lemma extract_no_table (f : file) :
  open_document w f = Ok [] -> extract_tables_from_word w f = ([], []).
Proof. intros Hd. unfold extract_tables_from_word. by rewrite Hd. Qed.

Lemma extract_raised (f : file) (msg : string) :
  open_document w f = Raised msg ->
  extract_tables_from_word w f
  = ([], ["无法打开文件 " +:+ file_name f +:+ "：" +:+ msg]).
Proof. intros Hd. unfold extract_tables_from_word. by rewrite Hd. Qed.

Variable f0 : file.
Variable msg : string.
Hypothesis f0_has_no_table : open_document w f0 = Ok [].

Let w' : world := with_document w f0 (Raised msg).

Lemma extract_with_document (f : file) :
  (extract_tables_from_word w' f).1 = (extract_tables_from_word w f).1.
Proof.
  unfold extract_tables_from_word, w', with_document. cbn [open_document].
  destruct (decide (f = f0)) as [->|Hne]; [|done].
  by rewrite f0_has_no_table.
Qed.

Lemma no_tables_with_document (f : file) : no_tables w' f = no_tables w f.
Proof. unfold no_tables. by rewrite extract_with_document. Qed.

Lemma tagged_tables_with_document (folder_name : string) (f : file) :
  tagged_tables w' folder_name f = tagged_tables w folder_name f.
Proof. unfold tagged_tables. by rewrite extract_with_document. Qed.

Lemma scan_with_document (folder_name : string) (files : list file) :
  folder_tables (scan_files w' folder_name files)
    = folder_tables (scan_files w folder_name files)
  /\ processed_files (scan_files w' folder_name files)
     = processed_files (scan_files w folder_name files)
  /\ failed_files (scan_files w' folder_name files)
     = failed_files (scan_files w folder_name files).
Proof.
  rewrite !scan_files_run. cbn. split; [|split].
  - f_equal. apply list_fmap_ext. intros _ f _. apply tagged_tables_with_document.
  - f_equal. apply list_filter_iff. intros f. by rewrite no_tables_with_document.
  - f_equal. apply list_filter_iff. intros f. by rewrite no_tables_with_document.
Qed.

Lemma finish_with_document (fc : FolderEntry) (scan1 scan2 : folder_scan) (st1 st2 : run) :
  folder_tables scan1 = folder_tables scan2 ->
  processed_files scan1 = processed_files scan2 ->
  failed_files scan1 = failed_files scan2 ->
  forget_messages st1 = forget_messages st2 ->
  forget_messages (finish_folder w' fc scan1 st1)
  = forget_messages (finish_folder w fc scan2 st2).
Proof.
  destruct scan1, scan2, st1, st2. cbn. intros -> -> -> [= -> -> -> ->].
  unfold finish_folder, merge_and_evaluate. cbn.
  destruct folder_tables1; [done|].
  destruct (pd_concat _); [|done].
  change (evaluate_folder w' (rule fc)) with (evaluate_folder w (rule fc)).
  by destruct (evaluate_folder w (rule fc) _) as [? [?|?]].
Qed.

Lemma process_folder_with_document (fc : FolderEntry) (st1 st2 : run) :
  forget_messages st1 = forget_messages st2 ->
  forget_messages (process_folder w' st1 fc) = forget_messages (process_folder w st2 fc).
Proof.
  intros Hst. unfold process_folder.
  change (path_exists w' (path fc)) with (path_exists w (path fc)).
  change (rglob_docx w' (path fc)) with (rglob_docx w (path fc)).
  destruct (path_exists w (path fc)); cbn [negb].
  - destruct (rglob_docx w (path fc)) as [|f files].
    + unfold forget_messages, add_empty in *. cbn. by injection Hst as -> -> -> ->.
    + destruct (scan_with_document (name fc) (f :: files)) as (Ht & Hp & Hf).
      by apply finish_with_document.
  - unfold forget_messages, add_error in *. cbn. by injection Hst as -> -> -> ->.
Qed.

Lemma process_folders_with_document (folders : list FolderEntry) (st1 st2 : run) :
  forget_messages st1 = forget_messages st2 ->
  forget_messages (foldl (process_folder w') st1 folders)
  = forget_messages (foldl (process_folder w) st2 folders).
Proof.
  revert st1 st2. induction folders as [|fc folders IH]; intros st1 st2 Hst; [done|].
  cbn [foldl]. apply IH. by apply process_folder_with_document.
Qed.

End EmptyDocument.

(** ** The configuration store *)

Section StoreFacts.
Context `{JsonCodec}.

Lemma save_session_flushed (v : json) (s : session) :
  write_fault (storage s) = None ->
  folders (save_session v s) = v
  /\ flushed (save_session v s)
  /\ write_fault (storage (save_session v s)) = None.
Proof.
  intros Hw. unfold save_session, save_config, flushed. by rewrite Hw.
Qed.

(** C2, as the code has it. Every add, delete of an existing entry, clear
    of all the configuration and accepted import writes the new folder
    list to the configuration file at once: when the file can be written,
    the persisted document is the serialisation of the list in memory as
    soon as the handler returns. A delete of no entry and a rejected
    import change neither the list nor the file. The button that clears
    the current configuration is not among these actions. *)
Theorem mutations_are_flushed (s s' : session) (a : action) :
  write_fault (storage s) = None ->
  a <> ClearCurrent ->
  step s a = Ok s' ->
  match new_folders s a with
  | Some v => folders s' = v /\ flushed s'
  | None => folders s' = folders s /\ storage s' = storage s
  end
  /\ (flushed s -> flushed s').
Proof.
  intros Hw Hnot Hstep.
  assert (Hsave : forall v, folders (save_session v s) = v /\ flushed (save_session v s)).
  { intros v. destruct (save_session_flushed v s Hw) as (? & ? & _). done. }
  assert (Hmain : match new_folders s a with
                  | Some v => folders s' = v /\ flushed s'
                  | None => folders s' = folders s /\ storage s' = storage s
                  end).
  { destruct a as [n p sc ec wd sd|i| | |uploaded]; cbn in Hstep |- *; [| | done | |].
    - destruct (folders s) as [| | | |items|]; try done.
      injection Hstep as <-. apply Hsave.
    - destruct (folders s) as [| | | |items|] eqn:Hf; try (by injection Hstep as <-).
      case_bool_decide; injection Hstep as <-; [apply Hsave | done].
    - injection Hstep as <-. apply Hsave.
    - injection Hstep as <-. unfold import_config.
      destruct (json_load uploaded) as [[| | |t|items|fields]|msg]; try done.
      + by destruct (contains "folders" t).
      + by destruct (existsb (is_str "folders") items).
      + destruct (obj_get fields "folders"); [apply Hsave | done]. }
  split; [exact Hmain|].
  intros Hfl. destruct (new_folders s a); [by destruct Hmain|].
  destruct Hmain as [Hf Hd]. unfold flushed. by rewrite Hf, Hd.
Qed.

Lemma export_config_truthy (s : session) :
  is_Some (export_config s) <-> truthy (folders s) = true.
Proof.
  unfold export_config. destruct (truthy (folders s)).
  - split; [done | eauto].
  - split; [by intros [? ?] | done].
Qed.

(** C7. Provided the codec reads back what it writes, the document that
    the export offers for a configuration is accepted by the import, into
    any session, and the folder list of the session is then the exported
    one; the import saves it at once. *)
Theorem export_import_round_trip (s s0 : session) (doc : document) :
  (forall v, json_load (json_dumps v) = Ok v) ->
  export_config s = Some doc ->
  step s0 (Import doc) = Ok (import_config doc s0)
  /\ folders (import_config doc s0) = folders s
  /\ (write_fault (storage s0) = None -> flushed (import_config doc s0))
  /\ export_config (import_config doc s0) = Some doc.
Proof.
  intros Hcodec Hexp. unfold export_config in Hexp.
  destruct (truthy (folders s)) eqn:Htruthy; [|done]. injection Hexp as <-.
  assert (Himp : import_config (json_dumps (config_of (folders s))) s0
                 = save_session (folders s) s0).
  { unfold import_config. rewrite Hcodec. cbn. by case_bool_decide. }
  split; [done|]. rewrite Himp.
  assert (Hf : folders (save_session (folders s) s0) = folders s).
  { unfold save_session, save_config. by destruct (write_fault (storage s0)). }
  split; [done|]. split.
  - intros Hw. by apply save_session_flushed.
  - unfold export_config. by rewrite Hf, Htruthy.
Qed.

End StoreFacts.

(** ** The pipeline and the store on the examples *)

Module PipelineExamples.
Import Reference Examples.

(** C1 fails on the code. The document of folder B has two rows; both
    dates of the first parse, it is 517 days old against 180 warning days
    and has -152 remaining days, and the evaluator flags it. The end date
    of the second row is no date: the evaluator makes it a null, but the
    formatting of the end column parses the column again in the default
    mode, which raises; the exception is caught as the error of the folder
    and the flagged row never reaches the report. *)
Lemma unparseable_end_date_drops_flagged_row :
  exists folder_merged st1 wr rep,
    pd_concat (folder_tables (scan_files lab_world "B" [file_d])) = Ok folder_merged
    /\ process_date_warnings lab_world [rule folder_B] (mkStore folder_merged 0)
       = (st1, Ok [wr])
    /\ w_days_diff wr = [Some 517%Z; None]
    /\ w_remaining_days wr = [Some (-152)%Z; None]
    /\ w_mask wr = [true; false]
    /\ process_tables lab_world [folder_B] = Ok rep
    /\ combined_warnings rep = None
    /\ tab2 rep = NoWarnings
    /\ success (final_status rep) = []
    /\ error (final_status rep)
       = [("B", "Unknown datetime string format, unable to parse: pending")].
Proof.
  eexists _, _, _, _.
  split; [vm_compute; reflexivity|].
  split; [vm_compute; reflexivity|].
  split; [reflexivity|]. split; [reflexivity|]. split; [reflexivity|].
  split; [vm_compute; reflexivity|].
  repeat split; reflexivity.
Qed.

(** The same document without the text that is no date: the flagged row
    is reported, as overdue. *)
Lemma parseable_end_dates_keep_flagged_row :
  let w := with_document lab_world file_d
             (Ok [ [ ["sample"; "start"; "end"];
                     ["S1"; "2020-01-01"; "2021-06-01"];
                     ["S2"; "2020-01-01"; ""] ] ]) in
  exists rep table,
    process_tables w [folder_B] = Ok rep
    /\ tab2 rep = Metrics 1 0 1 table
    /\ (fun r => (r.1, cell_at r.2 "sample", cell_at r.2 COL_ELAPSED,
                  cell_at r.2 COL_REMAINING, cell_at r.2 COL_STATUS)) <$> rows table
       = [(0, CStr "S1", CNum 517, CNum (-152), CStr OVERDUE)]
    /\ success (final_status rep) = [("B", 1, 0)]
    /\ error (final_status rep) = [].
Proof.
  cbv zeta. eexists _, _.
  split; [vm_compute; reflexivity|].
  split; [reflexivity|].
  split; [vm_compute; reflexivity|].
  split; reflexivity.
Qed.




Lemma empty_state_witness :
  exists rep,
    process_tables lab_world [folder_missing; folder_G; folder_empty; folder_Z] = Ok rep
    /\ merged_all rep = None
    /\ combined_warnings rep = None
    /\ (forall key, summary_get (status_summary rep) key = 0)
    /\ summary_get (status_summary rep) OVERDUE = 0
    /\ summary_get (status_summary rep) NEAR = 0
    /\ length (concat (rows <$> all_warning_samples
                         (process_folders lab_world
                            [folder_missing; folder_G; folder_empty; folder_Z]))) = 0
    /\ tab2 rep = NoWarnings.
Proof.
  apply (empty_state lab_world [folder_missing; folder_G; folder_empty; folder_Z]).
  vm_compute. reflexivity.
Defined.

End PipelineExamples.

Module StoreExamples.
Import Reference Examples.

(** C2 as stated fails: the button that clears the current configuration
    empties the list in memory and leaves the file as it is; the file still
    holds the folder F. *)
Lemma clear_current_is_not_flushed :
  flushed stocked_session
  /\ exists s',
       step stocked_session ClearCurrent = Ok s'
       /\ folders s' = JArr []
       /\ (load_config (storage s')).1 = JArr [entry_F]
       /\ ~ flushed s'.
Proof.
  split; [reflexivity|].
  eexists. split; [reflexivity|]. split; [reflexivity|]. split; [reflexivity|].
  unfold flushed. cbn. intros [=].
Qed.

Lemma mutations_are_flushed_witness :
  match new_folders empty_session (Add "F" "/data/F" "start" "" 180 365) with
  | Some v =>
      folders (save_session (JArr [entry_F]) empty_session) = v
      /\ flushed (save_session (JArr [entry_F]) empty_session)
  | None =>
      folders (save_session (JArr [entry_F]) empty_session) = folders empty_session
      /\ storage (save_session (JArr [entry_F]) empty_session) = storage empty_session
  end
  /\ (flushed empty_session -> flushed (save_session (JArr [entry_F]) empty_session)).
Proof.
  apply (mutations_are_flushed empty_session
           (save_session (JArr [entry_F]) empty_session)
           (Add "F" "/data/F" "start" "" 180 365)).
  - reflexivity.
  - discriminate.
  - reflexivity.
Defined.

Lemma export_import_round_trip_witness :
  step empty_session (Import (config_of (JArr [entry_F])))
  = Ok (import_config (config_of (JArr [entry_F])) empty_session)
  /\ folders (import_config (config_of (JArr [entry_F])) empty_session)
     = folders stocked_session
  /\ (write_fault (storage empty_session) = None ->
      flushed (import_config (config_of (JArr [entry_F])) empty_session))
  /\ export_config (import_config (config_of (JArr [entry_F])) empty_session)
     = Some (config_of (JArr [entry_F])).
Proof.
  apply (export_import_round_trip stocked_session empty_session
           (config_of (JArr [entry_F]))).
  - intros v. reflexivity.
  - reflexivity.
Defined.

End StoreExamples.

(** * Further properties of the code *)

(** ** The configuration store: save, load and the handlers together *)

Section StoreComposition.
Context `{JsonCodec}.

Lemma load_config_dumps (v : json) (fault : option string) :
  (forall v, json_load (json_dumps v) = Ok v) ->
  load_config (mkDisk (Some (json_dumps (config_of v))) fault) = (v, []).
Proof.
  intros Hcodec. unfold load_config. cbn [content]. rewrite Hcodec.
  unfold config_of. cbn [obj_get]. by case_bool_decide.
Qed.

(** X1. What [save_config] writes, [load_config] reads back: with a codec
    that reads back what it writes and a file that can be written, the
    save returns [True] and shows nothing, and loading the file afterwards
    returns the saved folder list, without a message. *)
Theorem saved_configuration_is_loaded_back (v : json) (d : disk) :
  (forall v, json_load (json_dumps v) = Ok v) ->
  write_fault d = None ->
  (save_config v d).1.2 = true
  /\ (save_config v d).2 = []
  /\ load_config (save_config v d).1.1 = (v, []).
Proof.
  intros Hcodec Hw. unfold save_config. rewrite Hw. cbn.
  split; [done|]. split; [done|]. exact (load_config_dumps v None Hcodec).
Qed.

(** X2. A save that fails is not noticed by the handler: when the file
    cannot be written, an add still appends the new entry to the folder
    list in memory, the file keeps its content, and the only trace is the
    one message of [save_config]. *)
Theorem failed_save_keeps_file_and_new_list (s : session) (items : list json)
    (fault n p sc ec : string) (wd sd : Z) :
  write_fault (storage s) = Some fault ->
  folders s = JArr items ->
  exists s',
    step s (Add n p sc ec wd sd) = Ok s'
    /\ folders s' = JArr (items ++ [new_folder n p sc ec wd sd])
    /\ storage s' = storage s
    /\ shown s' = shown s ++ ["保存配置文件出错：" +:+ fault].
Proof.
  intros Hfault Hitems. eexists. cbn. rewrite Hitems.
  split; [reflexivity|]. unfold save_session, save_config. rewrite Hfault. done.
Qed.

(** X3. The list emptied by the button that clears the current
    configuration comes back at the next start: when the session was
    saved, loading the file after the button was pressed returns the folder
    list the session had before. *)
Theorem cleared_configuration_is_reloaded (s : session) :
  (forall v, json_load (json_dumps v) = Ok v) ->
  flushed s ->
  exists s',
    step s ClearCurrent = Ok s'
    /\ folders s' = JArr []
    /\ load_config (storage s') = (folders s, []).
Proof.
  intros Hcodec Hfl. eexists. split; [reflexivity|]. split; [reflexivity|].
  cbn [storage]. unfold flushed in Hfl.
  destruct (storage s) as [c fault]. cbn in Hfl. subst c.
  exact (load_config_dumps (folders s) fault Hcodec).
Qed.

(** X4. An upload that is not an object with the key ['folders'] is
    rejected whole: the folder list and the file stay as they are and
    exactly one message is shown, whether the upload fails to parse, is an
    object without the key, or is a value of another type. *)
Theorem rejected_import_changes_nothing (uploaded : document) (s : session) :
  (forall fields v, json_load uploaded = Ok (JObj fields) ->
                    obj_get fields "folders" = Some v -> False) ->
  folders (import_config uploaded s) = folders s
  /\ storage (import_config uploaded s) = storage s
  /\ length (shown (import_config uploaded s)) = S (length (shown s)).
Proof.
  intros Hrej. unfold import_config.
  destruct (json_load uploaded) as [[| | |t|items|fields]|msg]; cbn;
    rewrite ?length_app; cbn; try (repeat split; first [done | lia]).
  - destruct (contains "folders" t); cbn; rewrite length_app; cbn;
      repeat split; first [done | lia].
  - destruct (existsb (is_str "folders") items); cbn; rewrite length_app; cbn;
      repeat split; first [done | lia].
  - destruct (obj_get fields "folders") as [v|] eqn:Hv.
    + exfalso. by eapply Hrej.
    + cbn. rewrite length_app. cbn. repeat split; first [done | lia].
Qed.

Lemma length_pop {A} (i : nat) (l : list A) :
  i < length l -> length (pop i l) = length l - 1.
Proof.
  intros Hi. unfold pop. rewrite length_app, length_take, length_drop. lia.
Qed.

Lemma lookup_pop {A} (i j : nat) (l : list A) :
  i < length l ->
  pop i l !! j = if bool_decide (j < i) then l !! j else l !! S j.
Proof.
  intros Hi. unfold pop. case_bool_decide as Hj.
  - rewrite lookup_app_l by (rewrite length_take; lia).
    by rewrite lookup_take_lt.
  - rewrite lookup_app_r by (rewrite length_take; lia).
    rewrite length_take, lookup_drop. f_equal. lia.
Qed.

(** X5. A delete removes exactly the entry at its position: the list is
    one shorter, the entries before the position stay where they are and
    the entries after it move up by one, in their order. *)
Theorem delete_removes_one_entry (s : session) (items : list json) (i : nat) :
  folders s = JArr items ->
  i < length items ->
  exists s' items',
    step s (Delete i) = Ok s'
    /\ folders s' = JArr items'
    /\ length items' = length items - 1
    /\ (forall j, j < i -> items' !! j = items !! j)
    /\ (forall j, i <= j -> items' !! j = items !! S j).
Proof.
  intros Hitems Hi. exists (save_session (JArr (pop i items)) s), (pop i items).
  split. { cbn. rewrite Hitems. by rewrite bool_decide_eq_true_2. }
  split. { unfold save_session, save_config. by destruct (write_fault (storage s)). }
  split; [by apply length_pop|]. split.
  - intros j Hj. rewrite lookup_pop by done. by rewrite bool_decide_eq_true_2.
  - intros j Hj. rewrite lookup_pop by done. rewrite bool_decide_eq_false_2; [done | lia].
Qed.

(** X6. Adding an entry and then deleting the last position gives the
    folder list back: the add puts the new entry after all the others. *)
Theorem add_then_delete_last_restores (s : session) (items : list json)
    (n p sc ec : string) (wd sd : Z) :
  folders s = JArr items ->
  exists s1 s2,
    step s (Add n p sc ec wd sd) = Ok s1
    /\ step s1 (Delete (length items)) = Ok s2
    /\ folders s1 = JArr (items ++ [new_folder n p sc ec wd sd])
    /\ folders s2 = JArr items.
Proof.
  intros Hitems.
  assert (Hsaved : forall v s0, folders (save_session v s0) = v).
  { intros v s0. unfold save_session, save_config.
    by destruct (write_fault (storage s0)). }
  eexists _, _. cbn. rewrite Hitems. split; [reflexivity|].
  rewrite Hsaved. rewrite bool_decide_eq_true_2 by (rewrite length_app; cbn; lia).
  split; [reflexivity|]. split; [done|]. rewrite Hsaved. f_equal.
  unfold pop. rewrite take_app_length.
  rewrite drop_ge by (rewrite length_app; cbn; lia). by rewrite app_nil_r.
Qed.

End StoreComposition.

(** X7. An entry made by an add form is read by the pipeline as the folder
    entry of the form's fields; an end column left empty is stored as
    [None], which the evaluator takes as "no end column", and any other
    end column is taken as configured. *)
Theorem added_entry_is_read_back (n p sc ec : string) (wd sd : Z) :
  folder_of_json (new_folder n p sc ec wd sd)
  = Some (mkFolder n p (mkRule sc (if truthy (JStr ec) then Some ec else None) wd sd))
  /\ (configured (if truthy (JStr ec) then Some ec else None) = None <-> ec = "")
  /\ (ec <> "" -> configured (if truthy (JStr ec) then Some ec else None) = Some ec).
Proof.
  split; [|split].
  - destruct ec; reflexivity.
  - destruct ec; cbn; split; done.
  - destruct ec; cbn; done.
Qed.

(** ** The extractor: all the tables of a document, or none *)

Section ExtractorFacts.
Context `{Libraries}.
Variable w : world.

Lemma frames_of_tables_ok (tables : list (list (list string))) (dfs : list DataFrame) :
  frames_of_tables tables = Ok dfs <-> omap table_frame tables = Ok <$> dfs.
Proof.
  revert dfs. induction tables as [|t tables IH]; intros dfs.
  - cbn. split; [by intros [= <-] | by destruct dfs].
  - cbn [frames_of_tables omap list_omap]. unfold table_frame at 1.
    fold (table_data t). destruct (table_data t) as [|header body].
    + apply IH.
    + destruct (pd_DataFrame body header) as [df|msg].
      * destruct (frames_of_tables tables) as [rest|msg] eqn:Hrest.
        -- split.
           ++ intros [= <-]. rewrite fmap_cons. f_equal. by apply IH.
           ++ destruct dfs as [|df' dfs']; [done|]. rewrite fmap_cons.
              intros [= <- Hdfs]. do 2 f_equal.
              apply IH in Hdfs. congruence.
        -- split; [done|]. destruct dfs as [|df' dfs']; [done|]. rewrite fmap_cons.
           intros [= <- Hdfs]. apply IH in Hdfs. congruence.
      * split; [done|]. destruct dfs as [|df' dfs']; [done|]. by rewrite fmap_cons.
Qed.

Lemma frames_of_tables_raised (tables : list (list (list string)))
    (t : list (list string)) (msg : string) :
  t ∈ tables -> table_frame t = Some (Raised msg) ->
  exists msg', frames_of_tables tables = Raised msg'.
Proof.
  intros Hin Ht. induction tables as [|t' tables IH]; [by apply elem_of_nil in Hin|].
  cbn [frames_of_tables]. fold (table_data t').
  apply elem_of_cons in Hin as [<- | Hin].
  - unfold table_frame in Ht. destruct (table_data t) as [|header body]; [done|].
    injection Ht as ->. eauto.
  - destruct (IH Hin) as [msg' Hrest].
    destruct (table_data t') as [|header body]; [eauto|].
    destruct (pd_DataFrame body header); [|eauto]. rewrite Hrest. eauto.
Qed.

(** X8. When every table of a document that has a row builds a frame, the
    extractor returns these frames, one per such table and in the order of
    the tables, the first row of a table being the header; tables without
    rows are passed over, and nothing is shown. *)
Theorem extracted_frames_follow_the_tables (f : file)
    (tables : list (list (list string))) (dfs : list DataFrame) :
  open_document w f = Ok tables ->
  omap table_frame tables = Ok <$> dfs ->
  extract_tables_from_word w f = (dfs, [])
  /\ length dfs = length (filter (fun t => t <> []) tables).
Proof.
  intros Hopen Hframes. split.
  - unfold extract_tables_from_word. rewrite Hopen.
    by rewrite (proj2 (frames_of_tables_ok tables dfs) Hframes).
  - clear Hopen. revert dfs Hframes.
    induction tables as [|t tables IH]; intros dfs Hframes.
    + by destruct dfs.
    + rewrite filter_cons. cbn [omap list_omap] in Hframes.
      unfold table_frame at 1 in Hframes. unfold table_data at 1 in Hframes.
      destruct t as [|row t'].
      * cbn in Hframes. rewrite decide_False by (intros Hne; by apply Hne).
        by apply IH.
      * rewrite fmap_cons in Hframes. rewrite decide_True by done.
        destruct dfs as [|df dfs]; [done|]. rewrite fmap_cons in Hframes.
        injection Hframes as _ Hframes. cbn [length]. f_equal. by apply IH.
Qed.

(** X9. One table that does not build loses the whole document: the
    exception leaves the loop over the tables, the frames already built are
    dropped, the extractor returns no table and shows one message, and the
    loop over the files counts the file as failed. *)
Theorem one_bad_table_loses_the_document (f : file)
    (tables : list (list (list string))) (t : list (list string)) (msg : string)
    (folder_name : string) (acc : folder_scan) :
  open_document w f = Ok tables ->
  t ∈ tables ->
  table_frame t = Some (Raised msg) ->
  (extract_tables_from_word w f).1 = []
  /\ length (extract_tables_from_word w f).2 = 1
  /\ folder_tables (scan_file w folder_name acc f) = folder_tables acc
  /\ processed_files (scan_file w folder_name acc f) = processed_files acc
  /\ failed_files (scan_file w folder_name acc f) = failed_files acc ++ [file_name f].
Proof.
  intros Hopen Hin Ht.
  destruct (frames_of_tables_raised tables t msg Hin Ht) as [msg' Hraised].
  assert (Hex : extract_tables_from_word w f
                = ([], ["无法打开文件 " +:+ file_name f +:+ "：" +:+ msg'])).
  { unfold extract_tables_from_word. by rewrite Hopen, Hraised. }
  assert (Hno : no_tables w f = true) by (unfold no_tables; by rewrite Hex).
  rewrite Hex, (scan_file_failed w folder_name acc f Hno). done.
Qed.

End ExtractorFacts.

(** ** The evaluator on any list of rules *)

Section EvaluatorShape.
Context `{Libraries}.
Variable w : world.

Lemma eval_rule_shape (r : Rule) (acc : list warning_result) (st : store) :
  columns (frame (eval_rule w r acc st).1) = columns (frame st)
  /\ (rows (frame (eval_rule w r acc st).1)).*1 = (rows (frame st)).*1
  /\ (forall c, c <> start_column r ->
        df_col (frame (eval_rule w r acc st).1) c = df_col (frame st) c)
  /\ (has_column (frame st) (start_column r) = true ->
        df_col (frame (eval_rule w r acc st).1) (start_column r)
        = coerce_cell <$> df_col (frame st) (start_column r))
  /\ ticks st <= ticks (eval_rule w r acc st).1 <= S (ticks st).
Proof.
  destruct (has_column (frame st) (start_column r)) eqn:Hs.
  - rewrite eval_rule_run by done. cbn [fst frame after_elapsed ticks].
    assert (Hlen : length (coerce_cell <$> df_col (frame st) (start_column r))
                   = length (rows (frame st))).
    { by rewrite length_fmap, length_df_col. }
    split. { cbn. apply add_column_present. by apply bool_decide_eq_true in Hs. }
    split; [by apply labels_set_col|].
    split. { intros c Hc. by apply df_col_set_col_ne. }
    split. { intros _. by apply df_col_set_col_eq. }
    destruct (uses_end_column (frame st) r); lia.
  - rewrite eval_rule_skip by done. cbn. repeat split; try done; lia.
Qed.

(** X10. Whatever the rules, [process_date_warnings] keeps the shape of
    the frame, whether it returns or raises: the columns and the index
    stay as they are, a column that is the start column of no rule keeps
    every cell, and the clock is read at most once per rule. *)
Theorem evaluator_keeps_the_shape (rules : list Rule) (st : store) :
  columns (frame (process_date_warnings w rules st).1) = columns (frame st)
  /\ (rows (frame (process_date_warnings w rules st).1)).*1 = (rows (frame st)).*1
  /\ (forall c, c ∉ start_column <$> rules ->
        df_col (frame (process_date_warnings w rules st).1) c = df_col (frame st) c)
  /\ ticks st <= ticks (process_date_warnings w rules st).1 <= ticks st + length rules.
Proof.
  unfold process_date_warnings. generalize (@nil warning_result).
  revert st. induction rules as [|r rules IH]; intros st acc.
  - cbn. repeat split; try done; lia.
  - cbn [process_rules]. unfold bind.
    destruct (eval_rule_shape r acc st) as (Hc & Hl & Ho & _ & Ht).
    destruct (eval_rule w r acc st) as [st1 [acc1|msg]] eqn:He; cbn [fst] in *.
    + destruct (IH st1 acc1) as (Hc' & Hl' & Ho' & Ht').
      split; [by rewrite Hc'|]. split; [by rewrite Hl'|].
      split.
      { intros c Hc0. rewrite fmap_cons, not_elem_of_cons in Hc0.
        destruct Hc0 as [Hne Hnot]. rewrite Ho' by done. by apply Ho. }
      cbn [length]. lia.
    + split; [done|]. split; [done|]. split.
      { intros c Hc0. rewrite fmap_cons, not_elem_of_cons in Hc0.
        destruct Hc0 as [Hne Hnot]. by apply Ho. }
      cbn [length]. lia.
Qed.

Lemma process_rules_aligned (rules : list Rule) (acc : list warning_result) (st : store) :
  Forall (aligned (length (rows (frame st)))) acc ->
  exists wrs,
    (process_rules w rules acc st).2 = Ok wrs
    /\ Forall (aligned (length (rows (frame st)))) wrs
    /\ length wrs <= length acc + length rules.
Proof.
  revert acc st. induction rules as [|r rules IH]; intros acc st Hacc.
  - exists acc. cbn. split; [done|]. split; [done|]. lia.
  - cbn [process_rules]. unfold bind.
    destruct (has_column (frame st) (start_column r)) eqn:Hstart.
    + rewrite eval_rule_run by done.
      set (wr := rule_warning (frame st) r (now w (ticks st))).
      assert (Hrows : length (rows (frame (after_elapsed r st))) = length (rows (frame st))).
      { cbn. apply length_rows_set_col. by rewrite length_fmap, length_df_col. }
      assert (Hwr : any (w_mask wr) = true -> aligned (length (rows (frame st))) wr).
      { intros Hany. unfold aligned, wr, rule_warning, rule_days. cbn.
        rewrite !length_fmap. done. }
      cbv zeta. fold wr. destruct (any (w_mask wr)) eqn:Hany.
      * destruct (IH (acc ++ [wr]) (after_elapsed r st)) as (wrs & Hres & Hall & Hlen).
        { rewrite Hrows. apply Forall_app. split; [done|]. constructor; [auto | constructor]. }
        exists wrs. split; [done|]. rewrite Hrows in Hall. split; [done|].
        rewrite length_app in Hlen. cbn [length] in *. lia.
      * destruct (IH acc (after_elapsed r st)) as (wrs & Hres & Hall & Hlen).
        { by rewrite Hrows. }
        exists wrs. split; [done|]. rewrite Hrows in Hall. split; [done|].
        cbn [length]. lia.
    + rewrite eval_rule_skip by done.
      destruct (IH acc st Hacc) as (wrs & Hres & Hall & Hlen).
      exists wrs. split; [done|]. split; [done|]. cbn [length]. lia.
Qed.

(** X11. The warnings the evaluator returns are aligned with the frame:
    the mask, the elapsed days and the remaining days of each have one
    value per row of the frame, and the mask flags at least one row; there
    is at most one warning per rule. *)
Theorem warnings_are_aligned (rules : list Rule) (st : store)
    (wrs : list warning_result) :
  (process_date_warnings w rules st).2 = Ok wrs ->
  Forall (aligned (length (rows (frame st)))) wrs
  /\ length wrs <= length rules.
Proof.
  intros Hres.
  destruct (process_rules_aligned rules [] st) as (wrs' & Hres' & Hall & Hlen);
    [constructor|].
  unfold process_date_warnings in Hres. rewrite Hres' in Hres. injection Hres as <-.
  split; [done|]. cbn in Hlen. lia.
Qed.

End EvaluatorShape.

(** ** The evaluation of a folder: what is reported, what is rewritten,
       when it raises *)

Section FolderEvaluation.
Context `{Libraries}.
Variable w : world.

Lemma cell_at_decorated (row : nat * gmap string cell) (d rm : option Z) :
  cell_at (decorated row d rm).2 COL_ELAPSED = num_cell d
  /\ cell_at (decorated row d rm).2 COL_REMAINING = num_cell rm
  /\ cell_at (decorated row d rm).2 COL_STATUS = CStr (status_of (num_cell rm)).
Proof.
  unfold decorated, cell_at. cbn [snd].
  split; [|split].
  - rewrite lookup_insert_ne by (by vm_compute).
    rewrite lookup_insert_ne by (by vm_compute).
    by rewrite lookup_insert_eq.
  - rewrite lookup_insert_ne by (by vm_compute). by rewrite lookup_insert_eq.
  - by rewrite lookup_insert_eq.
Qed.

(** X12. The classification of the flagged rows, lines 343-351, for any
    warning aligned with a frame whose column labels are distinct and
    whose index labels are distinct: a row of the frame is among the
    reported rows exactly when the mask flags it and its remaining days
    are defined and at most 30; the reported row keeps its index label and
    its cells, and carries its elapsed days, its remaining days, and the
    status "overdue" when the remaining days are at most 0, "near"
    otherwise. *)
Theorem flagged_rows_are_classified (fm : DataFrame) (wr : warning_result)
    (i lbl : nat) (row : gmap string cell) :
  NoDup (columns fm) ->
  NoDup (rows fm).*1 ->
  length (w_mask wr) = length (rows fm) ->
  length (w_days_diff wr) = length (rows fm) ->
  length (w_remaining_days wr) = length (rows fm) ->
  rows fm !! i = Some (lbl, row) ->
  ((exists x, x ∈ rows (warning_samples fm wr) /\ x.1 = lbl)
   <-> w_mask wr !! i = Some true
       /\ exists n, w_remaining_days wr !! i = Some (Some n) /\ (n <= 30)%Z)
  /\ (forall x, x ∈ rows (warning_samples fm wr) -> x.1 = lbl ->
        exists d n,
          w_days_diff wr !! i = Some d
          /\ w_remaining_days wr !! i = Some (Some n)
          /\ cell_at x.2 COL_ELAPSED = num_cell d
          /\ cell_at x.2 COL_REMAINING = CNum n
          /\ cell_at x.2 COL_STATUS = CStr (if (n <=? 0)%Z then OVERDUE else NEAR)
          /\ forall c, c <> COL_ELAPSED -> c <> COL_REMAINING -> c <> COL_STATUS ->
                       cell_at x.2 c = cell_at row c).
Proof.
  intros _ Hnd Hm Hd Hr Hrow.
  assert (Hsame : forall j row',
            rows fm !! j = Some row' -> row'.1 = lbl -> j = i /\ row' = (lbl, row)).
  { intros j row' Hj Hl.
    assert (j = i) as ->.
    { eapply (NoDup_lookup _ _ _ lbl Hnd).
      - rewrite list_lookup_fmap, Hj. simpl. by f_equal.
      - by rewrite list_lookup_fmap, Hrow. }
    split; [done | congruence]. }
  split.
  - split.
    + intros (x & Hx & Hlbl).
      apply (elem_of_warning_samples fm wr x Hm Hd Hr) in Hx
        as (j & row' & d & rm & Hmask & Hrow' & _ & Hrm & Hrep & ->).
      destruct (Hsame j row' Hrow' Hlbl) as [-> _].
      apply reported_iff in Hrep as (n & -> & Hle). eauto.
    + intros (Hmask & n & Hrm & Hle).
      destruct (lookup_lt_is_Some_2 (w_days_diff wr) i) as [d Hdi].
      { rewrite Hd. by apply lookup_lt_Some in Hrow. }
      exists (decorated (lbl, row) d (Some n)). split; [|done].
      apply (elem_of_warning_samples fm wr _ Hm Hd Hr).
      exists i, (lbl, row), d, (Some n). repeat split; try done.
      apply reported_iff. eauto.
  - intros x Hx Hlbl.
    apply (elem_of_warning_samples fm wr x Hm Hd Hr) in Hx
      as (j & row' & d & rm & Hmask & Hrow' & Hdj & Hrm & Hrep & ->).
    destruct (Hsame j row' Hrow' Hlbl) as [-> ->].
    apply reported_iff in Hrep as (n & -> & Hle).
    exists d, n. split; [done|]. split; [done|].
    destruct (cell_at_decorated (lbl, row) d (Some n)) as (-> & -> & ->).
    split; [done|]. split; [done|]. split.
    + cbn. f_equal. destruct (Z.leb_spec n 0); [done|].
      by rewrite (proj2 (Z.leb_le _ _) Hle).
    + intros c Hc1 Hc2 Hc3. unfold decorated, cell_at. cbn [snd].
      by rewrite !lookup_insert_ne.
Qed.

Lemma to_datetime_raise_iff (l : list cell) :
  is_ok (to_datetime ErrorsRaise l) = false
  <-> exists s, CStr s ∈ l /\ parse_datetime s = Unparseable.
Proof.
  induction l as [|c l IH]; cbn [to_datetime].
  - split; [done | by intros (s & ?%elem_of_nil & _)].
  - destruct (to_datetime_cell ErrorsRaise c) as [c'|msg] eqn:Hc.
    + destruct (to_datetime ErrorsRaise l) as [l'|msg] eqn:Hl; cbn in *.
      * split; [done|]. intros (s & Hin & Hs).
        apply elem_of_cons in Hin as [<- | Hin].
        -- cbn in Hc. by rewrite Hs in Hc.
        -- assert (false = true -> False) by done.
           destruct IH as [_ IH]. discriminate IH. eauto.
      * split; [|done]. intros _. destruct IH as [IH _].
        destruct (IH eq_refl) as (s & Hin & Hs). exists s. split; [by right | done].
    + cbn. split; [|done]. intros _.
      destruct c as [s| | |]; cbn in Hc; try done.
      exists s. split; [by left|]. by destruct (parse_datetime s).
Qed.

Lemma df_col_start_formatted_ne (r : Rule) (df : DataFrame) (c : string) :
  c <> start_column r -> df_col (start_formatted r df) c = df_col df c.
Proof.
  intros Hne. unfold start_formatted.
  destruct (has_column df (start_column r)); [|done].
  assert (Hlen : length (coerce_cell <$> df_col df (start_column r)) = length (rows df)).
  { by rewrite length_fmap, length_df_col. }
  rewrite df_col_set_col_ne; [by apply df_col_set_col_ne | done |].
  rewrite length_dt_strftime, Hlen. symmetry. by apply length_rows_set_col.
Qed.

Lemma df_col_start_formatted_eq (r : Rule) (df : DataFrame) :
  has_column df (start_column r) = true ->
  df_col (start_formatted r df) (start_column r)
  = dt_strftime (coerce_cell <$> df_col df (start_column r)).
Proof.
  intros Hs. unfold start_formatted. rewrite Hs.
  assert (Hlen : length (coerce_cell <$> df_col df (start_column r)) = length (rows df)).
  { by rewrite length_fmap, length_df_col. }
  apply df_col_set_col_eq.
  rewrite length_dt_strftime, Hlen. symmetry. by apply length_rows_set_col.
Qed.

Lemma columns_start_formatted (r : Rule) (df : DataFrame) :
  columns (start_formatted r df) = columns df.
Proof.
  unfold start_formatted. destruct (has_column df (start_column r)) eqn:Hs; [|done].
  cbn. apply bool_decide_eq_true in Hs.
  rewrite (add_column_present (columns df) _ Hs).
  by rewrite (add_column_present (columns df) _ Hs).
Qed.

Lemma texts_only_dt_strftime (l : list cell) : texts_only (dt_strftime l).
Proof.
  unfold texts_only, dt_strftime. apply Forall_fmap, Forall_true.
  intros [s|t|n|]; cbn; eauto.
Qed.

(** When the end column is configured, is a column of the frame and is
    not the start column, a text of that column which the date parser
    rejects makes the evaluation of the folder raise. *)
Lemma evaluate_folder_raises (r : Rule) (st : store) (c s : string) :
  configured (end_column r) = Some c ->
  has_column (frame st) c = true ->
  c <> start_column r ->
  CStr s ∈ df_col (frame st) c ->
  parse_datetime s = Unparseable ->
  exists st' msg, evaluate_folder w r st = (st', Raised msg).
Proof.
  intros Hcfg Hcol Hne Hin Hs. rewrite evaluate_folder_run. cbv zeta.
  unfold uses_end_column. rewrite Hcfg, Hcol. cbn [default].
  unfold id. rewrite df_col_start_formatted_ne by done.
  assert (Hraise : is_ok (to_datetime ErrorsRaise (df_col (frame st) c)) = false).
  { apply to_datetime_raise_iff. eauto. }
  destruct (to_datetime ErrorsRaise (df_col (frame st) c)) as [dates|msg]; [done|].
  by eexists _, _.
Qed.

(** The frame an evaluation leaves, whether it returns or raises. *)
Lemma evaluate_folder_frame (r : Rule) (st : store) :
  columns (frame (evaluate_folder w r st).1) = columns (frame st)
  /\ (rows (frame (evaluate_folder w r st).1)).*1 = (rows (frame st)).*1
  /\ (forall c, c <> start_column r -> configured (end_column r) <> Some c ->
        df_col (frame (evaluate_folder w r st).1) c = df_col (frame st) c).
Proof.
  assert (Hlabels : (rows (frame (evaluate_folder w r st).1)).*1 = (rows (frame st)).*1).
  { destruct (evaluate_folder w r st) as [st' res] eqn:Hev.
    by apply (labels_evaluate_folder w r st st' res). }
  revert Hlabels. rewrite evaluate_folder_run. cbv zeta. unfold uses_end_column.
  destruct (configured (end_column r)) as [c|] eqn:Hcfg; cbn [default]; unfold id.
  - destruct (has_column (frame st) c) eqn:Hc.
    + destruct (to_datetime ErrorsRaise (df_col (start_formatted r (frame st)) c))
        as [dates|msg] eqn:Hdates; cbn [fst frame].
      * assert (Hlen : length (dt_strftime dates)
                       = length (rows (start_formatted r (frame st)))).
        { rewrite length_dt_strftime, (length_to_datetime _ _ _ Hdates).
          apply length_df_col. }
        intros Hlabels. split.
        { cbn. rewrite add_column_present.
          - apply columns_start_formatted.
          - rewrite columns_start_formatted. by apply bool_decide_eq_true in Hc. }
        split; [done|].
        intros c' Hc' Hc''. rewrite df_col_set_col_ne by congruence.
        by apply df_col_start_formatted_ne.
      * intros Hlabels. split; [apply columns_start_formatted|]. split; [done|].
        intros; by apply df_col_start_formatted_ne.
    + cbn [fst frame]. intros Hlabels.
      split; [apply columns_start_formatted|]. split; [done|].
      intros; by apply df_col_start_formatted_ne.
  - cbn [fst frame]. intros Hlabels.
    split; [apply columns_start_formatted|]. split; [done|].
    intros; by apply df_col_start_formatted_ne.
Qed.

(** X14. The evaluation of a folder rewrites the date columns and nothing
    else, whether it returns or raises: every column that is neither the
    start column nor the configured end column keeps every cell, and the
    columns and the index stay as they are. When the evaluation returns,
    the date columns are left as text: the start column, and the end
    column when it is configured and is a column of the frame, hold texts
    and nulls only. *)
Theorem evaluation_rewrites_only_the_date_columns (r : Rule) (st : store) :
  (forall c, c <> start_column r -> configured (end_column r) <> Some c ->
     df_col (frame (evaluate_folder w r st).1) c = df_col (frame st) c)
  /\ columns (frame (evaluate_folder w r st).1) = columns (frame st)
  /\ (rows (frame (evaluate_folder w r st).1)).*1 = (rows (frame st)).*1
  /\ (is_ok (evaluate_folder w r st).2 = true ->
      (has_column (frame st) (start_column r) = true ->
         texts_only (df_col (frame (evaluate_folder w r st).1) (start_column r)))
      /\ (forall c, configured (end_column r) = Some c ->
            has_column (frame st) c = true ->
            texts_only (df_col (frame (evaluate_folder w r st).1) c))).
Proof.
  destruct (evaluate_folder_frame r st) as (Hcols & Hlabels & Hother).
  split; [exact Hother|]. split; [exact Hcols|]. split; [exact Hlabels|].
  clear Hcols Hlabels Hother.
  rewrite evaluate_folder_run. cbv zeta. unfold uses_end_column.
  destruct (configured (end_column r)) as [c|] eqn:Hcfg; cbn [default]; unfold id.
  - destruct (has_column (frame st) c) eqn:Hc.
    + destruct (to_datetime ErrorsRaise (df_col (start_formatted r (frame st)) c))
        as [dates|msg] eqn:Hdates; cbn [fst snd frame is_ok]; [|done].
      assert (Hlen : length (dt_strftime dates)
                     = length (rows (start_formatted r (frame st)))).
      { rewrite length_dt_strftime, (length_to_datetime _ _ _ Hdates).
        apply length_df_col. }
      intros _. split.
      * intros Hstart. destruct (decide (start_column r = c)) as [->|Hne].
        -- rewrite df_col_set_col_eq by done. apply texts_only_dt_strftime.
        -- rewrite df_col_set_col_ne by done.
           rewrite df_col_start_formatted_eq by done. apply texts_only_dt_strftime.
      * intros c' [= <-] _. rewrite df_col_set_col_eq by done.
        apply texts_only_dt_strftime.
    + cbn [fst snd frame is_ok]. intros _. split.
      * intros Hstart. rewrite df_col_start_formatted_eq by done.
        apply texts_only_dt_strftime.
      * intros c' [= <-] Hc'. congruence.
  - cbn [fst snd frame is_ok]. intros _. split.
    + intros Hstart. rewrite df_col_start_formatted_eq by done.
      apply texts_only_dt_strftime.
    + intros c' Hc'. done.
Qed.

End FolderEvaluation.

(** ** Invariants of the loop over the folders *)

Section RunInvariants.
Context `{Libraries}.
Variable w : world.

(** The four ways the body of the loop ends. *)
Lemma process_folder_outcome (st : run) (fc : FolderEntry) :
  let scan := scan_files w (name fc) (rglob_docx w (path fc)) in
  let st1 := record_scan (name fc) scan st in
  (path_exists w (path fc) = false
   /\ process_folder w st fc
      = add_error (name fc) ("文件夹路径不存在: " +:+ path fc) st)
  \/ (is_empty_folder w fc = true
      /\ process_folder w st fc = add_empty (name fc) st)
  \/ (path_exists w (path fc) = true /\ rglob_docx w (path fc) <> []
      /\ folder_tables scan = []
      /\ process_folder w st fc = st1)
  \/ (path_exists w (path fc) = true /\ rglob_docx w (path fc) <> []
      /\ folder_tables scan <> []
      /\ exists folder_merged s res,
           pd_concat (folder_tables scan) = Ok folder_merged
           /\ evaluate_folder w (rule fc) (mkStore folder_merged (clock_reads st)) = (s, res)
           /\ process_folder w st fc
              = match res with
                | Ok samples =>
                    add_success (name fc) (processed_files scan)
                      (length (failed_files scan))
                      (mkRun (all_tables st ++ [frame s])
                             (all_warning_samples st ++ samples)
                             (status st1) (messages st1) (ticks s))
                | Raised msg =>
                    add_error (name fc) msg
                      (mkRun (all_tables st ++ [frame s]) (all_warning_samples st)
                             (status st1) (messages st1) (ticks s))
                end).
Proof.
  cbv zeta. unfold process_folder, is_empty_folder.
  destruct (path_exists w (path fc)); cbn [negb andb]; [|by left].
  right. destruct (rglob_docx w (path fc)) as [|f files] eqn:Hfiles; [by left|].
  right. unfold finish_folder.
  destruct (folder_tables (scan_files w (name fc) (f :: files))) as [|t ts] eqn:Ht.
  - left. done.
  - right. split; [done|]. split; [done|]. split; [done|].
    rewrite <- Ht. unfold merge_and_evaluate.
    destruct (pd_concat_ok (folder_tables (scan_files w (name fc) (f :: files))))
      as [folder_merged Hc]; [by rewrite Ht|].
    rewrite Hc. cbn [clock_reads record_scan].
    destruct (evaluate_folder w (rule fc) (mkStore folder_merged (clock_reads st)))
      as [s res] eqn:Hev.
    exists folder_merged, s, res. split; [done|]. split; [done|].
    by destruct res.
Qed.

Lemma length_filter_bool {A} (b : A -> bool) (l : list A) :
  length (filter (fun x => b x = false) l) + length (filter (fun x => b x = true) l)
  = length l.
Proof.
  induction l as [|x l IH]; [done|]. rewrite !filter_cons.
  destruct (b x); cbn.
  - rewrite decide_False by done. rewrite decide_True by done. cbn. lia.
  - rewrite decide_True by done. rewrite decide_False by done. cbn. lia.
Qed.

Lemma scan_counts (folder_name : string) (files : list file) :
  processed_files (scan_files w folder_name files)
  + length (failed_files (scan_files w folder_name files))
  = length files.
Proof.
  rewrite scan_files_run. cbn. rewrite length_fmap. apply length_filter_bool.
Qed.

Lemma scan_tables_processed (folder_name : string) (files : list file) :
  folder_tables (scan_files w folder_name files) <> [] ->
  1 <= processed_files (scan_files w folder_name files).
Proof.
  rewrite scan_files_run. cbn. induction files as [|f files IH]; [done|].
  rewrite fmap_cons, filter_cons. cbn [concat].
  destruct (no_tables w f) eqn:Hf.
  - rewrite tagged_tables_nil by done. rewrite decide_False by done. apply IH.
  - rewrite decide_True by done. cbn. lia.
Qed.

Lemma success_process_folder (st : run) (fc : FolderEntry) (entry : string * nat * nat) :
  entry ∈ success (status (process_folder w st fc)) ->
  entry ∈ success (status st)
  \/ exists processed failed,
       entry = (name fc, processed, failed)
       /\ processed + failed = length (rglob_docx w (path fc))
       /\ 1 <= processed.
Proof.
  destruct (process_folder_outcome st fc)
    as [[_ ->] | [[_ ->] | [(_ & _ & _ & ->) | (_ & _ & Ht & fm & s & res & _ & _ & ->)]]];
    cbn; try (by left).
  destruct res as [samples|msg]; cbn; [|by left].
  rewrite elem_of_app, list_elem_of_singleton. intros [Hin | ->]; [by left|].
  right. eexists _, _. split; [done|]. split.
  - apply scan_counts.
  - by apply scan_tables_processed.
Qed.

(** X15. Every success entry of the status names a folder of the
    configuration and counts its documents: the number of processed files
    plus the number of failed files is the number of documents found under
    the path of the folder, and at least one file was processed. *)
Theorem success_entries_count_the_documents (folders : list FolderEntry)
    (entry : string * nat * nat) :
  entry ∈ success (status (process_folders w folders)) ->
  exists fc processed failed,
    fc ∈ folders
    /\ entry = (name fc, processed, failed)
    /\ processed + failed = length (rglob_docx w (path fc))
    /\ 1 <= processed.
Proof.
  unfold process_folders.
  assert (Hgen : forall st,
    entry ∈ success (status (foldl (process_folder w) st folders)) ->
    entry ∈ success (status st)
    \/ exists fc processed failed,
         fc ∈ folders /\ entry = (name fc, processed, failed)
         /\ processed + failed = length (rglob_docx w (path fc)) /\ 1 <= processed).
  { induction folders as [|fc folders IH]; intros st Hin; [by left|].
    cbn [foldl] in Hin. destruct (IH _ Hin) as [Hin' | (fc' & p & k & Hfc' & Hrest)].
    - destruct (success_process_folder st fc entry Hin')
        as [? | (p & k & He & Hsum & Hp)]; [by left|].
      right. exists fc, p, k. split; [by left | done].
    - right. exists fc', p, k. split; [by right | done]. }
  intros Hin. destruct (Hgen initial_run Hin) as [Hnil | ?]; [|done].
  by apply elem_of_nil in Hnil.
Qed.

End RunInvariants.

Section RunBounds.
Context `{Libraries}.
Variable w : world.

Lemma ticks_evaluate_folder (r : Rule) (st : store) :
  ticks st <= ticks (evaluate_folder w r st).1 <= S (ticks st).
Proof.
  rewrite evaluate_folder_run. cbv zeta.
  assert (Ht : ticks st <= ticks (after_rule r st) <= S (ticks st)).
  { unfold after_rule, after_elapsed.
    destruct (has_column (frame st) (start_column r)); cbn; [|lia].
    destruct (uses_end_column (frame st) r); lia. }
  destruct (uses_end_column (frame st) r); [|done].
  by destruct (to_datetime ErrorsRaise _).
Qed.

Lemma length_rule_warnings (df : DataFrame) (r : Rule) (instant : Z) :
  length (rule_warnings df r instant) <= 1.
Proof.
  unfold rule_warnings. destruct (has_column df (start_column r)); [|cbn; lia].
  destruct (any _); cbn; lia.
Qed.

Lemma length_samples_evaluate_folder (r : Rule) (st s : store) (samples : list DataFrame) :
  evaluate_folder w r st = (s, Ok samples) -> length samples <= 1.
Proof.
  intros Hev. rewrite (samples_evaluate_folder w r st s samples Hev).
  unfold collect_warnings.
  etransitivity; [apply length_filter|]. rewrite length_fmap.
  apply length_rule_warnings.
Qed.

(** The counts of a run, for the bounds below. *)
Lemma bounds_process_folder (st : run) (fc : FolderEntry) :
  let st' := process_folder w st fc in
  length (success (status st')) + length (empty_folders (status st'))
    + length (error (status st'))
  <= S (length (success (status st)) + length (empty_folders (status st))
        + length (error (status st)))
  /\ length (all_tables st) <= length (all_tables st') <= S (length (all_tables st))
  /\ clock_reads st' + length (all_tables st) <= clock_reads st + length (all_tables st')
  /\ clock_reads st <= clock_reads st'
  /\ length (success (status st')) + length (all_tables st)
     <= length (success (status st)) + length (all_tables st')
  /\ length (success (status st)) <= length (success (status st'))
  /\ length (all_warning_samples st') + length (success (status st))
     <= length (all_warning_samples st) + length (success (status st')).
Proof.
  cbv zeta.
  destruct (process_folder_outcome w st fc)
    as [[_ ->] | [[_ ->] | [(_ & _ & _ & ->) | (_ & _ & Ht & fm & s & res & _ & Hev & ->)]]];
    cbn; rewrite ?length_app; cbn; try lia.
  pose proof (ticks_evaluate_folder (rule fc) (mkStore fm (clock_reads st))) as Hticks.
  rewrite Hev in Hticks. cbn in Hticks.
  destruct res as [samples|msg]; cbn; rewrite ?length_app; cbn; [|lia].
  pose proof (length_samples_evaluate_folder _ _ _ _ Hev). lia.
Qed.

(** X16. The status never counts a folder twice, and every count of the
    run is bounded by the number of folders: the success, empty and error
    lists together have at most one entry per folder; at most one dataset
    is kept per folder; every success has its dataset; the clock is read at
    most once per dataset; and there is at most one frame of reported rows
    per success. *)
Theorem run_counts_are_bounded (folders : list FolderEntry) :
  let st := process_folders w folders in
  length (success (status st)) + length (empty_folders (status st))
    + length (error (status st)) <= length folders
  /\ length (all_tables st) <= length folders
  /\ length (success (status st)) <= length (all_tables st)
  /\ clock_reads st <= length (all_tables st)
  /\ length (all_warning_samples st) <= length (success (status st)).
Proof.
  cbv zeta. unfold process_folders.
  assert (Hgen : forall st,
    let st' := foldl (process_folder w) st folders in
    length (success (status st')) + length (empty_folders (status st'))
      + length (error (status st'))
    <= length (success (status st)) + length (empty_folders (status st))
       + length (error (status st)) + length folders
    /\ length (all_tables st') <= length (all_tables st) + length folders
    /\ length (all_tables st) <= length (all_tables st')
    /\ clock_reads st' + length (all_tables st) <= clock_reads st + length (all_tables st')
    /\ length (success (status st')) + length (all_tables st)
       <= length (success (status st)) + length (all_tables st')
    /\ length (success (status st)) <= length (success (status st'))
    /\ length (all_warning_samples st') + length (success (status st))
       <= length (all_warning_samples st) + length (success (status st'))).
  { induction folders as [|fc folders IH]; intros st; cbv zeta.
    - cbn. lia.
    - cbn [foldl length]. specialize (IH (process_folder w st fc)). cbv zeta in IH.
      pose proof (bounds_process_folder st fc) as Hstep. cbv zeta in Hstep. lia. }
  specialize (Hgen initial_run). cbv zeta in Hgen. cbn in Hgen. lia.
Qed.

Lemma empty_process_folder (st : run) (fc : FolderEntry) :
  empty_folders (status (process_folder w st fc))
  = empty_folders (status st) ++ (if is_empty_folder w fc then [name fc] else []).
Proof.
  destruct (process_folder_outcome w st fc)
    as [[Hp ->] | [[He ->] | [(Hp & Hf & _ & ->) | (Hp & Hf & _ & fm & s & res & _ & _ & ->)]]].
  - unfold is_empty_folder. rewrite Hp. cbn. by rewrite app_nil_r.
  - by rewrite He.
  - unfold is_empty_folder. rewrite Hp. cbn.
    destruct (rglob_docx w (path fc)); [done|]. by rewrite app_nil_r.
  - unfold is_empty_folder. rewrite Hp. cbn [andb].
    destruct (rglob_docx w (path fc)); [done|].
    destruct res; cbn; by rewrite app_nil_r.
Qed.

(** X17. The empty list of the status names, in the order of the
    configuration, exactly the folders whose path exists and holds no
    document. *)
Theorem empty_list_is_exact (folders : list FolderEntry) :
  empty_folders (status (process_folders w folders))
  = name <$> filter (fun fc => is_empty_folder w fc = true) folders.
Proof.
  unfold process_folders.
  assert (Hgen : forall st,
    empty_folders (status (foldl (process_folder w) st folders))
    = empty_folders (status st)
      ++ (name <$> filter (fun fc => is_empty_folder w fc = true) folders)).
  { induction folders as [|fc folders IH]; intros st.
    - cbn. by rewrite app_nil_r.
    - cbn [foldl]. rewrite IH, empty_process_folder, filter_cons.
      destruct (is_empty_folder w fc).
      + rewrite decide_True by done. rewrite fmap_cons. by rewrite <- app_assoc.
      + rewrite decide_False by done. by rewrite app_nil_r. }
  by rewrite Hgen.
Qed.

End RunBounds.

Section FileErrors.
Context `{Libraries}.
Variable w : world.

Lemma file_errors_other_folder (st : run) (fc : FolderEntry) (n : string) :
  name fc <> n ->
  file_errors (status (process_folder w st fc)) !! n = file_errors (status st) !! n.
Proof.
  intros Hne.
  assert (Hrec : forall scan,
            file_errors (status (record_scan (name fc) scan st)) !! n
            = file_errors (status st) !! n).
  { intros scan. unfold record_scan. cbn. destruct (failed_files scan); [done|].
    by rewrite lookup_insert_ne. }
  destruct (process_folder_outcome w st fc)
    as [[_ ->] | [[_ ->] | [(_ & _ & _ & ->) | (_ & _ & _ & fm & s & res & _ & _ & ->)]]].
  - done.
  - done.
  - apply Hrec.
  - destruct res; cbn [add_success add_error status file_errors]; apply Hrec.
Qed.

Lemma file_errors_this_folder (st : run) (fc : FolderEntry) :
  path_exists w (path fc) = true ->
  failed_files (scan_files w (name fc) (rglob_docx w (path fc))) <> [] ->
  file_errors (status (process_folder w st fc)) !! name fc
  = Some (failed_files (scan_files w (name fc) (rglob_docx w (path fc)))).
Proof.
  intros Hp Hfailed. unfold process_folder. rewrite Hp. cbn [negb].
  destruct (rglob_docx w (path fc)) as [|f files] eqn:Hfiles; [done|].
  by apply file_errors_finish_folder.
Qed.

(** A folder that stores no list of failed files leaves the entries of
    [file_errors] as they are, also under its own name. *)
Lemma file_errors_kept (st : run) (fc : FolderEntry) (n : string) :
  (name fc = n -> records_failed_files w fc = false) ->
  file_errors (status (process_folder w st fc)) !! n = file_errors (status st) !! n.
Proof.
  intros Hquiet. destruct (decide (name fc = n)) as [Heq|Hne];
    [|by apply file_errors_other_folder].
  specialize (Hquiet Heq). unfold records_failed_files in Hquiet.
  assert (Hrec : path_exists w (path fc) = true ->
            file_errors (status (record_scan (name fc)
                                   (scan_files w (name fc) (rglob_docx w (path fc))) st))
            = file_errors (status st)).
  { intros Hp. rewrite Hp in Hquiet. cbn [andb] in Hquiet.
    unfold record_scan. cbn [status file_errors].
    by destruct (failed_files (scan_files w (name fc) (rglob_docx w (path fc)))). }
  destruct (process_folder_outcome w st fc)
    as [[_ ->] | [[_ ->] | [(Hp & _ & _ & ->) | (Hp & _ & _ & fm & s & res & _ & _ & ->)]]].
  - done.
  - done.
  - by rewrite (Hrec Hp).
  - destruct res; cbn [add_success add_error status file_errors]; by rewrite (Hrec Hp).
Qed.

Lemma file_errors_foldl_kept (folders : list FolderEntry) (st : run) (n : string) :
  Forall (fun fc => name fc = n -> records_failed_files w fc = false) folders ->
  file_errors (status (foldl (process_folder w) st folders)) !! n
  = file_errors (status st) !! n.
Proof.
  intros Hquiet. revert st.
  induction Hquiet as [|fc folders Hfc _ IH]; intros st; [done|].
  cbn [foldl]. rewrite IH. by apply file_errors_kept.
Qed.

(** X18. The failed files are kept by folder name, and the last folder of
    a name that has failed files wins: after the run, the entry of the
    name is the list of failed files of that folder, whatever the folders
    of the same name before it had recorded, and whatever folders of the
    same name come after it without failed files of their own (a path that
    does not exist, no document, or tables in every document). *)
Theorem failed_files_of_last_folder_win (before after : list FolderEntry)
    (fc : FolderEntry) :
  path_exists w (path fc) = true ->
  failed_files (scan_files w (name fc) (rglob_docx w (path fc))) <> [] ->
  Forall (fun fc' => name fc' = name fc -> records_failed_files w fc' = false) after ->
  file_errors (status (process_folders w (before ++ fc :: after))) !! name fc
  = Some (failed_files (scan_files w (name fc) (rglob_docx w (path fc)))).
Proof.
  intros Hp Hfailed Hafter. unfold process_folders. rewrite foldl_app. cbn [foldl].
  rewrite file_errors_foldl_kept by done.
  by apply file_errors_this_folder.
Qed.

End FileErrors.

Section KeptDataset.
Context `{Libraries}.
Variable w : world.

Lemma all_tables_prefix (st : run) (fc : FolderEntry) :
  exists more, all_tables (process_folder w st fc) = all_tables st ++ more
               /\ (yields_no_data w fc = false -> more <> []).
Proof.
  unfold yields_no_data.
  destruct (process_folder_outcome w st fc)
    as [[Hp ->] | [[He ->] | [(Hp & Hf & Ht & ->) | (Hp & Hf & Ht & fm & s & res & _ & _ & ->)]]].
  - exists []. rewrite Hp. cbn. by rewrite app_nil_r.
  - exists []. cbn. rewrite app_nil_r. split; [done|].
    unfold is_empty_folder in He. apply andb_true_iff in He as [_ He].
    destruct (rglob_docx w (path fc)); [|done]. cbn. by rewrite orb_true_r.
  - exists []. cbn. rewrite app_nil_r. split; [done|]. rewrite Ht. by rewrite orb_true_r.
  - exists [frame s]. split; [by destruct res|]. done.
Qed.

(** X19. A folder whose evaluation raises is reported as an error and
    still gives its dataset: the merged frame of the folder, as the
    evaluation left it, with the columns and the index it had, is added to
    the datasets of the run, while no success entry and no reported row is
    added for the folder. *)
Theorem failed_evaluation_keeps_the_dataset (st : run) (fc : FolderEntry)
    (folder_merged : DataFrame) (s : store) (msg : string) :
  path_exists w (path fc) = true ->
  pd_concat (folder_tables (scan_files w (name fc) (rglob_docx w (path fc))))
    = Ok folder_merged ->
  evaluate_folder w (rule fc) (mkStore folder_merged (clock_reads st)) = (s, Raised msg) ->
  all_tables (process_folder w st fc) = all_tables st ++ [frame s]
  /\ columns (frame s) = columns folder_merged
  /\ (rows (frame s)).*1 = (rows folder_merged).*1
  /\ error (status (process_folder w st fc)) = error (status st) ++ [(name fc, msg)]
  /\ success (status (process_folder w st fc)) = success (status st)
  /\ empty_folders (status (process_folder w st fc)) = empty_folders (status st)
  /\ all_warning_samples (process_folder w st fc) = all_warning_samples st.
Proof.
  intros Hp Hc Hev.
  destruct (process_folder_outcome w st fc)
    as [[Hp' _] | [[He _] | [(_ & _ & Ht & _) | (_ & _ & _ & fm & s' & res & Hc' & Hev' & ->)]]].
  - congruence.
  - unfold is_empty_folder in He. apply andb_true_iff in He as [_ He].
    destruct (rglob_docx w (path fc)); [done | done].
  - by rewrite Ht in Hc.
  - rewrite Hc in Hc'. injection Hc' as <-. rewrite Hev in Hev'.
    injection Hev' as <- <-. cbn.
    destruct (evaluate_folder_frame w (rule fc) (mkStore folder_merged (clock_reads st)))
      as (Hcols & Hlabels & _).
    rewrite Hev in Hcols, Hlabels. done.
Qed.

(** X13. One text that is no date in the end column fails the folder:
    when the end column of the rule is configured, is a column of the
    merged frame and is not the start column, and some cell of it holds a
    text that the date parser rejects, the folder ends as a folder-level
    error; it is no success and reports no row, whatever its other rows
    are, and its dataset is kept. *)
Theorem unparseable_end_cell_fails_the_folder (st : run) (fc : FolderEntry)
    (folder_merged : DataFrame) (c s : string) :
  path_exists w (path fc) = true ->
  pd_concat (folder_tables (scan_files w (name fc) (rglob_docx w (path fc))))
    = Ok folder_merged ->
  configured (end_column (rule fc)) = Some c ->
  has_column folder_merged c = true ->
  c <> start_column (rule fc) ->
  CStr s ∈ df_col folder_merged c ->
  parse_datetime s = Unparseable ->
  exists msg,
    error (status (process_folder w st fc)) = error (status st) ++ [(name fc, msg)]
    /\ success (status (process_folder w st fc)) = success (status st)
    /\ all_warning_samples (process_folder w st fc) = all_warning_samples st
    /\ length (all_tables (process_folder w st fc)) = S (length (all_tables st)).
Proof.
  intros Hp Hc Hcfg Hcol Hne Hin Hs.
  destruct (evaluate_folder_raises w (rule fc) (mkStore folder_merged (clock_reads st)) c s)
    as (st' & msg & Hev); try done.
  exists msg.
  destruct (process_folder_outcome w st fc)
    as [[Hp' _] | [[He _] | [(_ & _ & Ht & _) | (_ & _ & _ & fm & s' & res & Hc' & Hev' & ->)]]].
  - congruence.
  - unfold is_empty_folder in He. apply andb_true_iff in He as [_ He].
    destruct (rglob_docx w (path fc)); [done | done].
  - by rewrite Ht in Hc.
  - rewrite Hc in Hc'. injection Hc' as <-. rewrite Hev in Hev'.
    injection Hev' as <- <-. cbn. rewrite length_app. cbn.
    repeat split; try done. lia.
Qed.

(** X20. When the tables of the documents have distinct column labels
    and [process_tables] returns, the merged dataset of the report is
    absent exactly when no folder of the configuration gives a table. *)
Theorem merged_dataset_absent_iff_no_data (folders : list FolderEntry) (rep : report) :
  Forall (distinct_labels w) folders ->
  process_tables w folders = Ok rep ->
  merged_all rep = None <-> forallb (yields_no_data w) folders = true.
Proof.
  intros _ Hrep.
  assert (Hgen : forall st,
    all_tables (foldl (process_folder w) st folders) = []
    <-> all_tables st = [] /\ forallb (yields_no_data w) folders = true).
  { clear Hrep. induction folders as [|fc folders IH]; intros st.
    - cbn. split; [done | by intros [? _]].
    - cbn [foldl forallb]. rewrite IH, andb_true_iff.
      destruct (yields_no_data w fc) eqn:Hfc.
      + destruct (no_data_process_folder w st fc Hfc) as [-> _].
        split; [intros [? ?]; done | intros (? & _ & ?); done].
      + destruct (all_tables_prefix st fc) as (more & -> & Hmore).
        split; [|by intros (_ & ? & _)].
        intros [Hnil _]. apply app_eq_nil in Hnil as [_ ->]. by destruct Hmore. }
  specialize (Hgen initial_run). fold (process_folders w folders) in Hgen.
  assert (Hmerged : merged_all rep = None <-> all_tables (process_folders w folders) = []).
  { revert Hrep. unfold process_tables, build_report.
    destruct (all_tables (process_folders w folders)) as [|t ts].
    - destruct (all_warning_samples (process_folders w folders)) as [|s0 ss].
      + by intros [= <-].
      + destruct (pd_concat (s0 :: ss)) as [df|?]; [|done].
        destruct (to_excel df); [|done]. by intros [= <-].
    - destruct (pd_concat (t :: ts)) as [df|?]; [|done].
      destruct (to_excel df); [|done].
      destruct (all_warning_samples (process_folders w folders)) as [|s0 ss].
      + by intros [= <-].
      + destruct (pd_concat (s0 :: ss)) as [df'|?]; [|done].
        destruct (to_excel df'); [|done]. by intros [= <-]. }
  rewrite Hmerged, Hgen. split; [by intros [_ ?] | done].
Qed.

End KeptDataset.

Section SummaryCounts.
Context `{Libraries}.
Variable w : world.

Lemma reported_status (rm : option Z) :
  reported rm = true ->
  status_of (num_cell rm) = OVERDUE \/ status_of (num_cell rm) = NEAR.
Proof.
  unfold reported. destruct rm as [n|]; cbn; [|done].
  destruct (n <=? 0)%Z; [by left|]. destruct (n <=? 30)%Z; [by right|]. done.
Qed.

Lemma warning_samples_rows_ok (fm : DataFrame) (wr : warning_result) :
  length (w_mask wr) = length (rows fm) ->
  length (w_days_diff wr) = length (rows fm) ->
  length (w_remaining_days wr) = length (rows fm) ->
  Forall warning_row (rows (warning_samples fm wr)).
Proof.
  intros Hm Hd Hr. apply Forall_forall. intros x Hx.
  apply (elem_of_warning_samples fm wr x Hm Hd Hr) in Hx
    as (i & row & d & rm & _ & _ & _ & _ & Hrep & ->).
  unfold warning_row.
  destruct (cell_at_decorated row d rm) as (_ & _ & ->).
  destruct (reported_status rm Hrep) as [-> | ->]; auto.
Qed.

Lemma samples_ok (r : Rule) (st s : store) (samples : list DataFrame) :
  evaluate_folder w r st = (s, Ok samples) ->
  Forall (fun ws => rows ws <> [] /\ Forall warning_row (rows ws)) samples.
Proof.
  intros Hev. pose proof (labels_evaluate_folder w _ _ _ _ Hev) as Hlabels.
  assert (Hlen : length (rows (frame s)) = length (rows (frame st))).
  { by rewrite <- (length_fmap fst (rows (frame s))), Hlabels, length_fmap. }
  rewrite (samples_evaluate_folder w _ _ _ _ Hev).
  apply Forall_forall. intros ws Hws.
  unfold collect_warnings in Hws.
  apply list_elem_of_filter in Hws as [Hne Hws].
  apply list_elem_of_fmap in Hws as (wr & -> & Hwr).
  split.
  - unfold df_empty in Hne. by destruct (rows (warning_samples (frame s) wr)).
  - apply elem_of_rule_warnings in Hwr as [-> _].
    apply warning_samples_rows_ok; cbn; unfold rule_days;
      rewrite ?length_fmap; by rewrite Hlen.
Qed.

Lemma samples_process_folder (st : run) (fc : FolderEntry) :
  Forall (fun ws => rows ws <> [] /\ Forall warning_row (rows ws)) (all_warning_samples st) ->
  Forall (fun ws => rows ws <> [] /\ Forall warning_row (rows ws))
         (all_warning_samples (process_folder w st fc)).
Proof.
  intros Hst.
  destruct (process_folder_outcome w st fc)
    as [[_ ->] | [[_ ->] | [(_ & _ & _ & ->) | (_ & _ & _ & fm & s & res & _ & Hev & ->)]]];
    try done.
  destruct res as [samples|msg]; cbn; [|done].
  apply Forall_app. split; [done|]. by apply (samples_ok _ _ _ _ Hev).
Qed.

Lemma samples_process_folders (folders : list FolderEntry) :
  Forall (fun ws => rows ws <> [] /\ Forall warning_row (rows ws))
         (all_warning_samples (process_folders w folders)).
Proof.
  unfold process_folders.
  assert (Hgen : forall st,
    Forall (fun ws => rows ws <> [] /\ Forall warning_row (rows ws)) (all_warning_samples st) ->
    Forall (fun ws => rows ws <> [] /\ Forall warning_row (rows ws))
           (all_warning_samples (foldl (process_folder w) st folders))).
  { induction folders as [|fc folders IH]; intros st Hst; [done|].
    cbn [foldl]. apply IH. by apply samples_process_folder. }
  apply Hgen. constructor.
Qed.

Lemma summary_get_insert (m : gmap string nat) (k k' : string) (n : nat) :
  summary_get (<[k := n]> m) k' = if bool_decide (k = k') then n else summary_get m k'.
Proof.
  unfold summary_get. case_bool_decide as Hk.
  - subst. by rewrite lookup_insert_eq.
  - by rewrite lookup_insert_ne.
Qed.

Lemma value_counts_two (a b : string) (l : list cell) :
  a <> b ->
  Forall (fun c => c = CStr a \/ c = CStr b) l ->
  summary_get (value_counts l) a + summary_get (value_counts l) b = length l.
Proof.
  intros Hab Hl. unfold value_counts.
  assert (Hgen : forall m,
    summary_get (foldl (fun m c => match c with
                                    | CStr s => <[s := S (default 0 (m !! s))]> m
                                    | _ => m
                                    end) m l) a
    + summary_get (foldl (fun m c => match c with
                                      | CStr s => <[s := S (default 0 (m !! s))]> m
                                      | _ => m
                                      end) m l) b
    = summary_get m a + summary_get m b + length l).
  { induction Hl as [|c l Hc _ IH]; intros m; [cbn [foldl length]; lia|].
    cbn [foldl length]. rewrite IH.
    destruct Hc as [-> | ->]; rewrite !summary_get_insert.
    - rewrite bool_decide_eq_true_2 by done. rewrite bool_decide_eq_false_2 by done.
      change (default 0 (m !! a)) with (summary_get m a). lia.
    - rewrite bool_decide_eq_false_2 by done. rewrite bool_decide_eq_true_2 by done.
      change (default 0 (m !! b)) with (summary_get m b). lia. }
  rewrite Hgen. unfold summary_get. rewrite !lookup_empty. cbn. lia.
Qed.

Lemma snd_reindex {A} (l : list (nat * A)) : (reindex l).*2 = l.*2.
Proof.
  unfold reindex. rewrite fmap_imap.
  rewrite (imap_ext _ (const snd)) by done. apply imap_const.
Qed.

Lemma Forall_concat_rows {A} (P : A -> Prop) (ls : list (list A)) :
  Forall (Forall P) ls -> Forall P (concat ls).
Proof.
  induction 1 as [|l ls Hl _ IH]; cbn; [constructor|]. by apply Forall_app.
Qed.

(** The warning half of the report, lines 406-411. *)
Lemma warning_half (samples : list DataFrame) (combined : option DataFrame)
    (summary : gmap string nat) :
  Forall (fun ws => rows ws <> [] /\ Forall warning_row (rows ws)) samples ->
  match samples with
  | [] => Ok (None, ∅)
  | _ => match pd_concat samples with
         | Ok df => match to_excel df with
                    | Ok _ => Ok (Some df, value_counts (df_col df COL_STATUS))
                    | Raised msg => Raised msg
                    end
         | Raised msg => Raised msg
         end
  end = Ok (combined, summary) ->
  match combined with
  | Some table =>
      summary_get summary OVERDUE + summary_get summary NEAR = length (rows table)
      /\ 1 <= length (rows table)
  | None => samples = []
  end.
Proof.
  intros Hok. destruct samples as [|s0 ss]; [by intros [= <- _]|].
  set (L := concat (rows <$> s0 :: ss)).
  assert (HL : Forall warning_row L).
  { apply Forall_concat_rows. apply Forall_fmap.
    eapply Forall_impl; [exact Hok|]. by intros ws [_ ?]. }
  assert (Hcol : df_col (mkDataFrame (union_columns (s0 :: ss)) (reindex L)) COL_STATUS
                 = (fun m => cell_at m COL_STATUS) <$> L.*2).
  { unfold df_col. cbn [rows]. rewrite <- (snd_reindex L).
    by rewrite <- list_fmap_compose. }
  unfold pd_concat. fold L.
  destruct (to_excel _); [|done]. rewrite Hcol. intros [= <- <-]. cbn [rows].
  split.
  - rewrite (value_counts_two OVERDUE NEAR).
    + unfold reindex. by rewrite length_imap, !length_fmap.
    + by vm_compute.
    + apply Forall_fmap, Forall_fmap. eapply Forall_impl; [exact HL|].
      intros x Hx. exact Hx.
  - unfold reindex. rewrite length_imap. unfold L.
    rewrite fmap_cons. cbn [concat]. rewrite length_app.
    apply Forall_inv in Hok as [Hne _]. destruct (rows s0); [done|]. cbn. lia.
Qed.

(** X21. The three metrics of the warning tab agree. When the tables of
    the documents have distinct column labels and [process_tables]
    returns: if the tab shows the metrics, the number of overdue rows plus
    the number of near rows is the total number of warning rows, which is
    the number of rows of the table shown and is at least one; and the tab
    shows the notice instead exactly when no folder reported a row. *)
Theorem summary_counts_add_up (folders : list FolderEntry) (rep : report) :
  Forall (distinct_labels w) folders ->
  process_tables w folders = Ok rep ->
  match tab2 rep with
  | Metrics overdue near total table =>
      overdue + near = total
      /\ total = length (rows table)
      /\ 1 <= total
      /\ combined_warnings rep = Some table
      /\ all_warning_samples (process_folders w folders) <> []
  | NoWarnings =>
      combined_warnings rep = None
      /\ all_warning_samples (process_folders w folders) = []
  end.
Proof.
  intros _ Hrep.
  pose proof (samples_process_folders folders) as Hok.
  unfold process_tables, build_report in Hrep.
  destruct (match all_tables (process_folders w folders) with
            | [] => Ok None
            | _ => _
            end) as [merged|?]; [|done].
  destruct (match all_warning_samples (process_folders w folders) with
            | [] => Ok (None, ∅)
            | _ => _
            end) as [[combined summary]|?] eqn:Hw; [|done].
  injection Hrep as <-. cbn [tab2 combined_warnings].
  pose proof (warning_half _ _ _ Hok Hw) as Hhalf.
  destruct combined as [table|]; [|done].
  destruct Hhalf as [Hsum Hone].
  repeat split; try done.
  intros Hnil. rewrite Hnil in Hw. discriminate Hw.
Qed.

End SummaryCounts.

Section SourceColumns.
Context `{Libraries}.
Variable w : world.

Lemma foldl_add_column_incl (cols acc : list string) (c : string) :
  c ∈ acc \/ c ∈ cols -> c ∈ foldl add_column acc cols.
Proof.
  revert acc. induction cols as [|c' cols IH]; intros acc.
  - by intros [? | ?%elem_of_nil].
  - intros Hc. cbn [foldl]. apply IH. rewrite elem_of_add_column.
    destruct Hc as [? | [-> | ?]%elem_of_cons]; auto.
Qed.

Lemma union_columns_incl (dfs : list DataFrame) (df : DataFrame) (c : string) :
  df ∈ dfs -> c ∈ columns df -> c ∈ union_columns dfs.
Proof.
  intros Hdf Hc. unfold union_columns.
  assert (Hgen : forall acc,
    c ∈ acc \/ df ∈ dfs ->
    c ∈ foldl (fun acc df => foldl add_column acc (columns df)) acc dfs).
  { clear Hdf. induction dfs as [|d dfs IH]; intros acc.
    - by intros [? | ?%elem_of_nil].
    - intros Hor. cbn [foldl]. apply IH.
      destruct Hor as [? | [<- | ?]%elem_of_cons].
      + left. apply foldl_add_column_incl. by left.
      + left. apply foldl_add_column_incl. by right.
      + by right. }
  apply Hgen. by right.
Qed.

Lemma tag_table_rows (f : file) (folder_name : string) (t : DataFrame)
    (x : nat * gmap string cell) :
  x ∈ rows (tag_table f folder_name t) ->
  cell_at x.2 COL_FOLDER = CStr folder_name
  /\ cell_at x.2 COL_FILE = CStr (file_name f).
Proof.
  unfold tag_table, df_set_scalar. cbn [rows].
  intros (y & -> & (z & -> & _)%list_elem_of_fmap)%list_elem_of_fmap.
  unfold cell_at. cbn [snd]. split.
  - by rewrite lookup_insert_eq.
  - rewrite lookup_insert_ne by (by vm_compute). by rewrite lookup_insert_eq.
Qed.

Lemma tag_table_columns (f : file) (folder_name : string) (t : DataFrame) :
  COL_FILE ∈ columns (tag_table f folder_name t)
  /\ COL_FOLDER ∈ columns (tag_table f folder_name t).
Proof.
  unfold tag_table, df_set_scalar. cbn [columns].
  rewrite !elem_of_add_column. auto.
Qed.

(** X22. Every row of the merged frame of a folder carries its source:
    the folder column holds the name of the folder and the file column
    holds the name of one of the folder's documents, one that gave a
    table; and both columns are columns of the frame (a column of the
    document with one of these two names is overwritten). *)
Theorem rows_carry_their_source (folder_name : string) (files : list file)
    (folder_merged : DataFrame) :
  pd_concat (folder_tables (scan_files w folder_name files)) = Ok folder_merged ->
  COL_FILE ∈ columns folder_merged
  /\ COL_FOLDER ∈ columns folder_merged
  /\ forall x, x ∈ rows folder_merged ->
       cell_at x.2 COL_FOLDER = CStr folder_name
       /\ exists f, f ∈ files /\ no_tables w f = false
                    /\ cell_at x.2 COL_FILE = CStr (file_name f).
Proof.
  rewrite scan_files_run. cbn [folder_tables].
  set (dfs := concat (tagged_tables w folder_name <$> files)).
  assert (Hdfs : forall df, df ∈ dfs ->
            exists f t, f ∈ files /\ no_tables w f = false
                        /\ df = tag_table f folder_name t).
  { intros df Hdf. unfold dfs in Hdf.
    apply list_elem_of_In, in_concat in Hdf as (l & Hl & Hdf).
    apply list_elem_of_In, list_elem_of_fmap in Hl as (f & -> & Hf).
    apply list_elem_of_In in Hdf. unfold tagged_tables in Hdf.
    apply list_elem_of_fmap in Hdf as (t & -> & Ht).
    exists f, t. split; [done|]. split; [|done].
    unfold no_tables. destruct ((extract_tables_from_word w f).1); [|done].
    by apply elem_of_nil in Ht. }
  destruct dfs as [|d0 dfs'] eqn:Hd; [done|]. intros [= <-].
  destruct (Hdfs d0) as (f0 & t0 & _ & _ & Hd0); [by left|].
  destruct (tag_table_columns f0 folder_name t0) as [Hc1 Hc2].
  split. { cbn [columns]. apply (union_columns_incl _ d0); [by left | by rewrite Hd0]. }
  split. { cbn [columns]. apply (union_columns_incl _ d0); [by left | by rewrite Hd0]. }
  intros x Hx. cbn [rows] in Hx.
  assert (Hx2 : x.2 ∈ (concat (rows <$> d0 :: dfs')).*2).
  { rewrite <- snd_reindex. by apply list_elem_of_fmap_2. }
  apply list_elem_of_fmap in Hx2 as (y & Hy & Hin).
  apply list_elem_of_In, in_concat in Hin as (l & Hl & Hin).
  apply list_elem_of_In, list_elem_of_fmap in Hl as (df & -> & Hdf).
  apply list_elem_of_In in Hin.
  destruct (Hdfs df Hdf) as (f & t & Hf & Hnt & ->).
  destruct (tag_table_rows f folder_name t y Hin) as [H1 H2].
  rewrite Hy. split; [done|]. by exists f.
Qed.

End SourceColumns.

(** ** A document without tables *)

Section EmptyDocumentInRun.
Context `{Libraries}.
Variable w : world.

(** C10. A document that opens and has no table is recorded and counted
    as a failed file of its folder, and nothing at the status interface
    tells it from a document that does not open. The extractor answers
    both with the empty list. In the folder's loop over the files the
    document is among the failed files and is not counted as processed;
    the list of failed files with the document in it is stored under the
    folder's name, by the folder's own iteration and at the end of the run
    (when no later folder of the same name stores a list of its own); and
    when the folder is reported as a success, the failure count of its
    entry is the length of that list. In the world in which the document
    does not open, the loop over the files ends with the same failed files,
    the same count and the same tables, and the run ends with the same
    status, datasets and warnings: the runs differ by the messages shown
    only. *)
Theorem empty_document_counts_as_failed (f0 : file) (msg : string) (st : run)
    (before after : list FolderEntry) (fc : FolderEntry) :
  open_document w f0 = Ok [] ->
  path_exists w (path fc) = true ->
  f0 ∈ rglob_docx w (path fc) ->
  Forall (fun fc' => name fc' = name fc -> records_failed_files w fc' = false) after ->
  let w' := with_document w f0 (Raised msg) in
  let files := rglob_docx w (path fc) in
  let scan := scan_files w (name fc) files in
  let scan' := scan_files w' (name fc) files in
  (extract_tables_from_word w f0).1 = []
  /\ (extract_tables_from_word w' f0).1 = []
  /\ file_name f0 ∈ failed_files scan
  /\ failed_files scan = file_name <$> filter (fun f => no_tables w f = true) files
  /\ processed_files scan = length (filter (fun f => no_tables w f = false) files)
  /\ processed_files scan + length (failed_files scan) = length files
  /\ file_errors (status (process_folder w st fc)) !! name fc = Some (failed_files scan)
  /\ file_errors (status (process_folders w (before ++ fc :: after))) !! name fc
     = Some (failed_files scan)
  /\ (success (status (process_folder w st fc)) = success (status st)
      \/ success (status (process_folder w st fc))
         = success (status st)
             ++ [(name fc, processed_files scan, length (failed_files scan))])
  /\ failed_files scan' = failed_files scan
  /\ processed_files scan' = processed_files scan
  /\ folder_tables scan' = folder_tables scan
  /\ status (process_folders w' (before ++ fc :: after))
     = status (process_folders w (before ++ fc :: after))
  /\ forget_messages (process_folders w' (before ++ fc :: after))
     = forget_messages (process_folders w (before ++ fc :: after)).
Proof.
  intros Hdoc Hp Hin Hafter w' files scan scan'.
  assert (Hnt : no_tables w f0 = true).
  { unfold no_tables. by rewrite extract_no_table. }
  assert (Hscan := scan_files_run w (name fc) files). fold scan in Hscan.
  assert (Hfailed : file_name f0 ∈ failed_files scan).
  { rewrite Hscan. cbn [failed_files]. apply list_elem_of_fmap_2.
    apply list_elem_of_filter. done. }
  assert (Hne : failed_files scan <> []).
  { intros Hnil. rewrite Hnil in Hfailed. by apply elem_of_nil in Hfailed. }
  assert (Hruns : forget_messages (process_folders w' (before ++ fc :: after))
                  = forget_messages (process_folders w (before ++ fc :: after))).
  { by apply process_folders_with_document. }
  destruct (scan_with_document w f0 msg Hdoc (name fc) files) as (Ht' & Hp' & Hf').
  split; [by rewrite extract_no_table|].
  split; [by rewrite (extract_with_document w f0 msg Hdoc f0), extract_no_table|].
  split; [exact Hfailed|].
  split; [by rewrite Hscan|]. split; [by rewrite Hscan|].
  split; [apply scan_counts|].
  split; [by apply file_errors_this_folder|].
  split.
  { unfold process_folders. rewrite foldl_app. cbn [foldl].
    rewrite file_errors_foldl_kept by done.
    by apply file_errors_this_folder. }
  split.
  { destruct (process_folder_outcome w st fc)
      as [[_ ->] | [[_ ->] | [(_ & _ & _ & ->) | (_ & _ & _ & fm & s & res & _ & _ & ->)]]];
      try (by left).
    destruct res; [by right | by left]. }
  split; [exact Hf'|]. split; [exact Hp'|]. split; [exact Ht'|].
  split; [|exact Hruns].
  by injection Hruns.
Qed.

End EmptyDocumentInRun.

(** ** Loading a configuration that is missing or broken *)

Section LoadFallback.
Context `{JsonCodec}.

(** X24. [load_config] never fails and falls back to the empty list: it
    returns a value other than the empty list only when the file exists
    and holds an object with the key ['folders'], and then it returns the
    value under that key; it shows a message, exactly one, only when the
    file exists and does not load as an object, and then it returns the
    empty list. *)
Theorem load_config_falls_back (d : disk) :
  ((load_config d).1 <> JArr [] ->
     exists doc fields, content d = Some doc /\ json_load doc = Ok (JObj fields)
                        /\ obj_get fields "folders" = Some (load_config d).1)
  /\ ((load_config d).2 <> [] ->
        (load_config d).1 = JArr [] /\ length (load_config d).2 = 1
        /\ exists doc, content d = Some doc
                       /\ forall fields, json_load doc <> Ok (JObj fields))
  /\ (content d = None -> load_config d = (JArr [], [])).
Proof.
  unfold load_config. destruct (content d) as [doc|]; [|done].
  destruct (json_load doc) as [[| | |t|items|fields]|msg] eqn:Hload; cbn;
    try (split; [done|]; split; [|done]; intros _; split; [done|]; split; [done|];
         exists doc; split; [done|]; intros fields'; by rewrite Hload).
  split; [|split; [done | done]].
  intros Hne. exists doc, fields. split; [done|]. split; [done|].
  by destruct (obj_get fields "folders").
Qed.

End LoadFallback.

(** ** The further properties on the examples *)

Module MoreWitnesses.
Import Reference Examples MoreExamples.

Lemma saved_configuration_is_loaded_back_witness :
  (save_config (JArr [entry_F]) (mkDisk None None)).1.2 = true
  /\ (save_config (JArr [entry_F]) (mkDisk None None)).2 = []
  /\ load_config (save_config (JArr [entry_F]) (mkDisk None None)).1.1
     = (JArr [entry_F], []).
Proof.
  apply (saved_configuration_is_loaded_back (JArr [entry_F]) (mkDisk None None)).
  - intros v. reflexivity.
  - reflexivity.
Defined.

Lemma failed_save_keeps_file_and_new_list_witness :
  exists s',
    step read_only_session (Add "F" "/data/F" "start" "" 180 365) = Ok s'
    /\ folders s' = JArr ([] ++ [new_folder "F" "/data/F" "start" "" 180 365])
    /\ storage s' = storage read_only_session
    /\ shown s' = shown read_only_session ++ ["保存配置文件出错：" +:+ "Permission denied"].
Proof.
  apply (failed_save_keeps_file_and_new_list read_only_session []
           "Permission denied" "F" "/data/F" "start" "" 180 365).
  - reflexivity.
  - reflexivity.
Defined.

Lemma cleared_configuration_is_reloaded_witness :
  exists s',
    step stocked_session ClearCurrent = Ok s'
    /\ folders s' = JArr []
    /\ load_config (storage s') = (folders stocked_session, []).
Proof.
  apply (cleared_configuration_is_reloaded stocked_session).
  - intros v. reflexivity.
  - reflexivity.
Defined.

Lemma rejected_import_changes_nothing_witness :
  folders (import_config (JArr [JStr "folders"]) stocked_session) = folders stocked_session
  /\ storage (import_config (JArr [JStr "folders"]) stocked_session)
     = storage stocked_session
  /\ length (shown (import_config (JArr [JStr "folders"]) stocked_session))
     = S (length (shown stocked_session)).
Proof.
  apply (@rejected_import_changes_nothing codec (JArr [JStr "folders"]) stocked_session).
  intros fields v Hload. discriminate Hload.
Defined.

Lemma delete_removes_one_entry_witness :
  exists s' items',
    step stocked_session (Delete 0) = Ok s'
    /\ folders s' = JArr items'
    /\ length items' = length [entry_F] - 1
    /\ (forall j, j < 0 -> items' !! j = [entry_F] !! j)
    /\ (forall j, 0 <= j -> items' !! j = [entry_F] !! S j).
Proof.
  apply (delete_removes_one_entry stocked_session [entry_F] 0).
  - reflexivity.
  - cbn. lia.
Defined.

Lemma add_then_delete_last_restores_witness :
  exists s1 s2,
    step stocked_session (Add "G" "/data/G" "start" "end" 180 365) = Ok s1
    /\ step s1 (Delete (length [entry_F])) = Ok s2
    /\ folders s1 = JArr ([entry_F] ++ [new_folder "G" "/data/G" "start" "end" 180 365])
    /\ folders s2 = JArr [entry_F].
Proof.
  apply (add_then_delete_last_restores stocked_session [entry_F]
           "G" "/data/G" "start" "end" 180 365).
  reflexivity.
Defined.

Lemma extracted_frames_follow_the_tables_witness :
  extract_tables_from_word two_tables_world file_x = ([good_frame; good_frame], [])
  /\ length [good_frame; good_frame]
     = length (filter (fun t => t <> []) [good_table; []; good_table]).
Proof.
  apply (extracted_frames_follow_the_tables two_tables_world file_x
           [good_table; []; good_table] [good_frame; good_frame]).
  - vm_compute. reflexivity.
  - vm_compute. reflexivity.
Defined.

Lemma one_bad_table_loses_the_document_witness :
  (extract_tables_from_word three_tables_world file_x).1 = []
  /\ length (extract_tables_from_word three_tables_world file_x).2 = 1
  /\ folder_tables (scan_file three_tables_world "X" (mkScan [] 0 [] []) file_x)
     = folder_tables (mkScan [] 0 [] [])
  /\ processed_files (scan_file three_tables_world "X" (mkScan [] 0 [] []) file_x)
     = processed_files (mkScan [] 0 [] [])
  /\ failed_files (scan_file three_tables_world "X" (mkScan [] 0 [] []) file_x)
     = failed_files (mkScan [] 0 [] []) ++ [file_name file_x].
Proof.
  apply (one_bad_table_loses_the_document three_tables_world file_x
           [good_table; []; wide_table] wide_table
           "columns passed do not match the data" "X" (mkScan [] 0 [] [])).
  - vm_compute. reflexivity.
  - apply list_elem_of_In. cbn. auto.
  - vm_compute. reflexivity.
Defined.

Lemma warnings_are_aligned_witness :
  Forall (aligned (length (rows (frame (mkStore one_row 0))))) one_row_warnings
  /\ length one_row_warnings <= length [rule_a].
Proof.
  apply (warnings_are_aligned lab_world [rule_a] (mkStore one_row 0) one_row_warnings).
  vm_compute. reflexivity.
Defined.

Lemma flagged_rows_are_classified_witness :
  ((exists x, x ∈ rows (warning_samples dated_rows dated_warning) /\ x.1 = 0)
   <-> w_mask dated_warning !! 0 = Some true
       /\ exists n, w_remaining_days dated_warning !! 0 = Some (Some n) /\ (n <= 30)%Z)
  /\ (forall x, x ∈ rows (warning_samples dated_rows dated_warning) -> x.1 = 0 ->
        exists d n,
          w_days_diff dated_warning !! 0 = Some d
          /\ w_remaining_days dated_warning !! 0 = Some (Some n)
          /\ cell_at x.2 COL_ELAPSED = num_cell d
          /\ cell_at x.2 COL_REMAINING = CNum n
          /\ cell_at x.2 COL_STATUS = CStr (if (n <=? 0)%Z then OVERDUE else NEAR)
          /\ forall c, c <> COL_ELAPSED -> c <> COL_REMAINING -> c <> COL_STATUS ->
                       cell_at x.2 c
                       = cell_at {["start" := CStr "2020-01-01";
                                   "end" := CStr "2021-06-01"]} c).
Proof.
  apply (flagged_rows_are_classified dated_rows dated_warning 0 0
           {["start" := CStr "2020-01-01"; "end" := CStr "2021-06-01"]}).
  - apply (bool_decide_unpack _). vm_compute. reflexivity.
  - apply (bool_decide_unpack _). vm_compute. reflexivity.
  - reflexivity.
  - reflexivity.
  - reflexivity.
  - vm_compute. reflexivity.
Defined.

Lemma unparseable_end_cell_fails_the_folder_witness :
  exists msg,
    error (status (process_folder lab_world initial_run folder_B))
    = error (status initial_run) ++ [(name folder_B, msg)]
    /\ success (status (process_folder lab_world initial_run folder_B))
       = success (status initial_run)
    /\ all_warning_samples (process_folder lab_world initial_run folder_B)
       = all_warning_samples initial_run
    /\ length (all_tables (process_folder lab_world initial_run folder_B))
       = S (length (all_tables initial_run)).
Proof.
  apply (unparseable_end_cell_fails_the_folder lab_world initial_run folder_B merged_B
           "end" "pending").
  - vm_compute. reflexivity.
  - vm_compute. reflexivity.
  - vm_compute. reflexivity.
  - vm_compute. reflexivity.
  - discriminate.
  - apply list_elem_of_In. vm_compute. auto.
  - vm_compute. reflexivity.
Defined.

Lemma success_entries_count_the_documents_witness :
  exists fc processed failed,
    fc ∈ [folder_F; folder_G]
    /\ ("F", 1, 1) = (name fc, processed, failed)
    /\ processed + failed = length (rglob_docx lab_world (path fc))
    /\ 1 <= processed.
Proof.
  apply (success_entries_count_the_documents lab_world [folder_F; folder_G] ("F", 1, 1)).
  vm_compute. apply list_elem_of_In. left. reflexivity.
Defined.

Lemma failed_files_of_last_folder_win_witness :
  file_errors (status (process_folders lab_world
                         ([folder_F_first] ++ folder_F :: [folder_G; folder_F_last])))
    !! name folder_F
  = Some (failed_files (scan_files lab_world (name folder_F)
                          (rglob_docx lab_world (path folder_F)))).
Proof.
  apply (failed_files_of_last_folder_win lab_world [folder_F_first]
           [folder_G; folder_F_last] folder_F).
  - vm_compute. reflexivity.
  - vm_compute. discriminate.
  - constructor; [by vm_compute|]. constructor; [by vm_compute|]. constructor.
Defined.

Lemma failed_evaluation_keeps_the_dataset_witness :
  all_tables (process_folder lab_world initial_run folder_B)
  = all_tables initial_run
      ++ [frame (evaluate_folder lab_world (rule folder_B) (mkStore merged_B 0)).1]
  /\ columns (frame (evaluate_folder lab_world (rule folder_B) (mkStore merged_B 0)).1)
     = columns merged_B
  /\ (rows (frame (evaluate_folder lab_world (rule folder_B) (mkStore merged_B 0)).1)).*1
     = (rows merged_B).*1
  /\ error (status (process_folder lab_world initial_run folder_B))
     = error (status initial_run)
         ++ [(name folder_B, "Unknown datetime string format, unable to parse: pending")]
  /\ success (status (process_folder lab_world initial_run folder_B))
     = success (status initial_run)
  /\ empty_folders (status (process_folder lab_world initial_run folder_B))
     = empty_folders (status initial_run)
  /\ all_warning_samples (process_folder lab_world initial_run folder_B)
     = all_warning_samples initial_run.
Proof.
  apply (failed_evaluation_keeps_the_dataset lab_world initial_run folder_B merged_B
           (evaluate_folder lab_world (rule folder_B) (mkStore merged_B 0)).1
           "Unknown datetime string format, unable to parse: pending").
  - vm_compute. reflexivity.
  - vm_compute. reflexivity.
  - vm_compute. reflexivity.
Defined.

Lemma merged_dataset_absent_iff_no_data_witness :
  merged_all lab_report = None
  <-> forallb (yields_no_data lab_world) [folder_missing; folder_F] = true.
Proof.
  apply (merged_dataset_absent_iff_no_data lab_world [folder_missing; folder_F] lab_report).
  - unfold distinct_labels. apply (bool_decide_unpack _). vm_compute. reflexivity.
  - vm_compute. reflexivity.
Defined.

Lemma summary_counts_add_up_witness :
  match tab2 lab_report with
  | Metrics overdue near total table =>
      overdue + near = total
      /\ total = length (rows table)
      /\ 1 <= total
      /\ combined_warnings lab_report = Some table
      /\ all_warning_samples (process_folders lab_world [folder_missing; folder_F]) <> []
  | NoWarnings =>
      combined_warnings lab_report = None
      /\ all_warning_samples (process_folders lab_world [folder_missing; folder_F]) = []
  end.
Proof.
  apply (summary_counts_add_up lab_world [folder_missing; folder_F] lab_report).
  - unfold distinct_labels. apply (bool_decide_unpack _). vm_compute. reflexivity.
  - vm_compute. reflexivity.
Defined.

Lemma rows_carry_their_source_witness :
  COL_FILE ∈ columns merged_F
  /\ COL_FOLDER ∈ columns merged_F
  /\ forall x, x ∈ rows merged_F ->
       cell_at x.2 COL_FOLDER = CStr "F"
       /\ exists f, f ∈ [file_a; file_b] /\ no_tables lab_world f = false
                    /\ cell_at x.2 COL_FILE = CStr (file_name f).
Proof.
  apply (rows_carry_their_source lab_world "F" [file_a; file_b] merged_F).
  vm_compute. reflexivity.
Defined.

Lemma empty_document_counts_as_failed_witness :
  let w' := with_document quiet_world file_b (Raised "Package not found") in
  let files := rglob_docx quiet_world (path folder_F) in
  let scan := scan_files quiet_world (name folder_F) files in
  let scan' := scan_files w' (name folder_F) files in
  (extract_tables_from_word quiet_world file_b).1 = []
  /\ (extract_tables_from_word w' file_b).1 = []
  /\ file_name file_b ∈ failed_files scan
  /\ failed_files scan
     = file_name <$> filter (fun f => no_tables quiet_world f = true) files
  /\ processed_files scan
     = length (filter (fun f => no_tables quiet_world f = false) files)
  /\ processed_files scan + length (failed_files scan) = length files
  /\ file_errors (status (process_folder quiet_world initial_run folder_F)) !! name folder_F
     = Some (failed_files scan)
  /\ file_errors (status (process_folders quiet_world
                            ([folder_G] ++ folder_F :: [folder_Z; folder_F_last])))
       !! name folder_F
     = Some (failed_files scan)
  /\ (success (status (process_folder quiet_world initial_run folder_F))
      = success (status initial_run)
      \/ success (status (process_folder quiet_world initial_run folder_F))
         = success (status initial_run)
             ++ [(name folder_F, processed_files scan, length (failed_files scan))])
  /\ failed_files scan' = failed_files scan
  /\ processed_files scan' = processed_files scan
  /\ folder_tables scan' = folder_tables scan
  /\ status (process_folders w' ([folder_G] ++ folder_F :: [folder_Z; folder_F_last]))
     = status (process_folders quiet_world
                 ([folder_G] ++ folder_F :: [folder_Z; folder_F_last]))
  /\ forget_messages
       (process_folders w' ([folder_G] ++ folder_F :: [folder_Z; folder_F_last]))
     = forget_messages
         (process_folders quiet_world ([folder_G] ++ folder_F :: [folder_Z; folder_F_last])).
Proof.
  apply (empty_document_counts_as_failed quiet_world file_b "Package not found"
           initial_run [folder_G] [folder_Z; folder_F_last] folder_F).
  - vm_compute. reflexivity.
  - vm_compute. reflexivity.
  - apply list_elem_of_In. vm_compute. auto.
  - constructor; [by vm_compute|]. constructor; [by vm_compute|]. constructor.
Defined.

End MoreWitnesses.
